(** * signmap: the map script (script.js)

    A shallow embedding of the filtering-and-rendering pipeline of
    [script.js]: the loader ([loadCSV]), the renderer ([createMarkers]),
    the filter controls ([createFilterControls]) with their change handler
    ([applyFilters]) and the [DOMContentLoaded] handler.

    Conventions of the embedding.
    - A JavaScript string is a [string]; the text of the data set is taken
      to be ASCII, so that [toLowerCase] and [toUpperCase] act on the
      letters A-Z / a-z only and the default [sort] order is the order of
      the character codes.
    - A row produced by the tabular parser is the list of its own
      properties in enumeration order, all of them strings (the parser is
      called with the header option and without type conversion); a
      property that is absent reads as [None] (JavaScript's [undefined]).
    - A number produced by [parseFloat] is kept as the decimal literal that
      was read; only its class (NaN, infinite, finite) is observed by the
      script.
    - The page (marker collection, stat displays, filter controls, console)
      is an explicit [World]; code that mutates it or throws lives in a
      small state-and-exception monad [M].
    - The tabular parser and the mapping library are parameters
      ([Library]): the parser is any function from text to rows, and any
      call into the mapping library may throw.
    - At start-up the handler resumes after its [await] before the request
      for the data file settles, so the handler's body is run first and
      the promise chain of the loader second. *)

From Stdlib Require Import Bool Ascii String List ZArith NArith Lia.
From Stdlib Require Import Sorted.
Import ListNotations.

Local Open Scope list_scope.
Local Open Scope string_scope.

(* ===================================================================== *)
(** ** Strings *)

Module JSString.

Definition lowerChar (c : ascii) : ascii :=
  let n := nat_of_ascii c in
  if (Nat.leb 65 n && Nat.leb n 90)%bool then ascii_of_nat (n + 32) else c.

Definition upperChar (c : ascii) : ascii :=
  let n := nat_of_ascii c in
  if (Nat.leb 97 n && Nat.leb n 122)%bool then ascii_of_nat (n - 32) else c.

Fixpoint mapChars (f : ascii -> ascii) (s : string) : string :=
  match s with
  | EmptyString => EmptyString
  | String c s' => String (f c) (mapChars f s')
  end.

(** [s.toLowerCase()] and [s.toUpperCase()]. *)
Definition toLowerCase (s : string) : string := mapChars lowerChar s.
Definition toUpperCase (s : string) : string := mapChars upperChar s.

(** [s.replace(/_/g, ' ')]. *)
Definition replaceUnderscores (s : string) : string :=
  mapChars (fun c => if Ascii.eqb c "_" then " "%char else c) s.

(** [s.includes(sub)]: [sub] occurs in [s] at some position. *)
Fixpoint includes (s sub : string) : bool :=
  if prefix sub s then true
  else match s with
       | EmptyString => false
       | String _ s' => includes s' sub
       end.

(** [xs.join(sep)] on an array of strings. *)
Definition join (sep : string) (xs : list string) : string :=
  String.concat sep xs.

(** Truthiness of a value that is a string or [undefined]. *)
Definition truthy (v : option string) : bool :=
  match v with
  | Some s => negb (s =? "")
  | None => false
  end.

(** [a || b]. *)
Definition or_else (a b : option string) : option string :=
  if truthy a then a else b.

(** String conversion inside a template literal. *)
Definition toStr (v : option string) : string :=
  match v with
  | Some s => s
  | None => "undefined"
  end.

(** [a === b] where [a] may be [undefined] and [b] is a string. *)
Definition strictEq (a : option string) (b : string) : bool :=
  match a with
  | Some s => s =? b
  | None => false
  end.

End JSString.
Import JSString.

(* ===================================================================== *)
(** ** Numbers as [parseFloat] produces them *)

Module JSNumber.

(** [Finite neg m e] stands for the double nearest to [(-1)^neg * m * 10^e]. *)
Inductive number : Type :=
| NaN
| Infinite (neg : bool)
| Finite (neg : bool) (mantissa : N) (exponent : Z).

Definition isNaN (x : number) : bool :=
  match x with NaN => true | _ => false end.

Definition isFinite (x : number) : bool :=
  match x with Finite _ _ _ => true | _ => false end.

Definition isWhiteSpace (c : ascii) : bool :=
  let n := nat_of_ascii c in
  (Nat.leb 9 n && Nat.leb n 13)%bool || Nat.eqb n 32.

Definition isDigit (c : ascii) : bool :=
  let n := nat_of_ascii c in (Nat.leb 48 n && Nat.leb n 57)%bool.

Fixpoint trimStart (s : string) : string :=
  match s with
  | String c s' => if isWhiteSpace c then trimStart s' else s
  | EmptyString => EmptyString
  end.

(** The longest prefix of decimal digits, and what follows it. *)
Fixpoint spanDigits (s : string) : string * string :=
  match s with
  | String c s' =>
      if isDigit c
      then let (d, r) := spanDigits s' in (String c d, r)
      else (EmptyString, s)
  | EmptyString => (EmptyString, EmptyString)
  end.

Fixpoint digitsValue (acc : N) (d : string) : N :=
  match d with
  | String c d' => digitsValue (10 * acc + (N.of_nat (nat_of_ascii c) - 48))%N d'
  | EmptyString => acc
  end.

(** The exponent part [e|E [+|-] digits]; it is read only if digits follow. *)
Definition exponentPart (s : string) : Z :=
  match s with
  | String c r =>
      if (Ascii.eqb c "e" || Ascii.eqb c "E")%bool then
        let '(neg, r') :=
          match r with
          | String "+" t => (false, t)
          | String "-" t => (true, t)
          | _ => (false, r)
          end in
        let (d, _) := spanDigits r' in
        if d =? "" then 0%Z
        else let v := Z.of_N (digitsValue 0 d) in if neg then (- v)%Z else v
      else 0%Z
  | EmptyString => 0%Z
  end.

(** Values at or above [2^1024 - 2^970] round to an infinity. *)
Definition overflowBound : Z := (2 ^ 1024 - 2 ^ 970)%Z.

Definition overflows (m : N) (e : Z) : bool :=
  if (0 <=? e)%Z
  then (overflowBound <=? Z.of_N m * 10 ^ e)%Z
  else (overflowBound * 10 ^ (- e) <=? Z.of_N m)%Z.

Definition ofDecimal (neg : bool) (m : N) (e : Z) : number :=
  if overflows m e then Infinite neg else Finite neg m e.

(** [parseFloat(v)]: leading white space is dropped, then the longest
    prefix that is a decimal literal is read; [undefined] is first
    converted to the string "undefined". *)
Definition parseFloat (v : option string) : number :=
  let t := trimStart (toStr v) in
  let '(neg, u) :=
    match t with
    | String "+" r => (false, r)
    | String "-" r => (true, r)
    | _ => (false, t)
    end in
  if prefix "Infinity" u then Infinite neg
  else
    let (d1, r1) := spanDigits u in
    let (d2, r2) :=
      match r1 with
      | String "." r => spanDigits r
      | _ => (EmptyString, r1)
      end in
    if ((d1 =? "") && (d2 =? ""))%bool then NaN
    else ofDecimal neg (digitsValue 0 (d1 ++ d2))
                   (exponentPart r2 - Z.of_nat (String.length d2)).

End JSNumber.
Import JSNumber.

(* ===================================================================== *)
(** ** Rows *)

(** One record of the data set: its properties in enumeration order. *)
Definition Row : Type := list (string * string).

(** [row[key]]. *)
Fixpoint get (row : Row) (key : string) : option string :=
  match row with
  | [] => None
  | (k, v) :: rest => if k =? key then Some v else get rest key
  end.

(** [Object.keys(row)] and [Object.values(row)]. *)
Definition keys (row : Row) : list string := map fst row.
Definition values (row : Row) : list string := map snd row.

(** A row is geolocatable iff both coordinates parse to finite numbers. *)
Definition geolocatable (row : Row) : bool :=
  isFinite (parseFloat (get row "latitude")) &&
  isFinite (parseFloat (get row "longitude")).

(** What the script handles as [data] / [rows]: an array of rows, or
    [undefined]. *)
Inductive Value : Type :=
| undefined
| array (rows : list Row).

(* ===================================================================== *)
(** ** Exceptions, console, and the state-and-exception monad *)

Inductive Error : Type :=
| TypeError (message : string)
| HttpError (status : N)          (* new Error(`HTTP error! status: ...`) *)
| ExternalError (message : string). (* raised by an external collaborator *)

Inductive LogEntry : Type :=
| LogText (message text : string)
| LogNumber (message : string) (n : N)
| LogKeys (message : string) (ks : list string)
| LogRows (message : string) (rows : list Row)
| LogRow (message : string) (row : Row)
| LogRowError (message : string) (row : Row) (e : Error)   (* console.error *)
| LogError (message : string) (e : Error).                 (* console.error *)

Inductive Result (A : Type) : Type :=
| Ok (a : A)
| Throw (e : Error).
Arguments Ok {A} a.
Arguments Throw {A} e.

(** A computation over a state [S]: it ends normally or by throwing, and
    in both cases leaves the state as mutated so far. *)
Definition M (S A : Type) : Type := S -> Result A * S.

Definition ret {S A} (a : A) : M S A := fun s => (Ok a, s).

Definition bind {S A B} (m : M S A) (k : A -> M S B) : M S B :=
  fun s =>
    match m s with
    | (Ok a, s') => k a s'
    | (Throw e, s') => (Throw e, s')
    end.

Definition throw {S A} (e : Error) : M S A := fun s => (Throw e, s).

Definition modify {S} (f : S -> S) : M S unit := fun s => (Ok tt, f s).

Definition getState {S} : M S S := fun s => (Ok s, s).

(** [try { m } catch (error) { handler(error) }]. *)
Definition try_catch {S A} (m : M S A) (handler : Error -> M S A) : M S A :=
  fun s =>
    match m s with
    | (Ok a, s') => (Ok a, s')
    | (Throw e, s') => handler e s'
    end.

(** Running a detached computation: its outcome is observed, not rethrown. *)
Definition attempt {S A} (m : M S A) : M S (Result A) :=
  fun s => let (r, s') := m s in (Ok r, s').

Definition exec {S A} (m : M S A) (s : S) : S := snd (m s).

Declare Scope monad_scope.
Delimit Scope monad_scope with monad.
Notation "x <- m ;; k" := (bind m (fun x => k))
  (at level 61, m at next level, right associativity) : monad_scope.
Notation "m ;; k" := (bind m (fun _ => k))
  (at level 61, right associativity) : monad_scope.
Local Open Scope monad_scope.

(** [xs.forEach(f)]: an exception thrown by [f] ends the loop. *)
Fixpoint forEach {S A} (f : A -> M S unit) (xs : list A) : M S unit :=
  match xs with
  | [] => ret tt
  | x :: xs' => f x ;; forEach f xs'
  end.

(** [xs.filter(f)] for a callback with effects. *)
Fixpoint filterM {S A} (f : A -> M S bool) (xs : list A) : M S (list A) :=
  match xs with
  | [] => ret []
  | x :: xs' =>
      keep <- f x ;;
      rest <- filterM f xs' ;;
      ret (if keep then x :: rest else rest)
  end.

(* ===================================================================== *)
(** ** The page and the external collaborators *)

Inductive Emoji : Type := pin | beer | pasta.

Record Icon : Type := mkIcon {
  className : string;
  html : Emoji;
  iconSize : Z * Z;
  iconAnchor : Z * Z }.

Record Marker : Type := mkMarker {
  latlng : number * number;
  icon : Icon;
  popup : option string }.

(** A child of the [#filters] element: the search box, or a labelled
    dropdown with its option values and its current value. *)
Inductive FilterGroup : Type :=
| SearchGroup (value : string)
| SelectGroup (label : string) (options : list string) (value : string).

Record World : Type := mkWorld {
  layers : list Marker;              (* the marker cluster group *)
  total_markers : option N;          (* text of #total-markers *)
  food_drink_markers : option N;     (* text of #food-drink-markers *)
  visible_markers : option N;        (* text of #visible-markers *)
  filters : list FilterGroup;        (* children of #filters *)
  listeners : option (list Row);     (* data captured by applyFilters, once attached *)
  requests : list string;            (* resources fetched so far *)
  console : list LogEntry }.

(** The tabular parser and the mapping library are external.  The parser
    is a function from text to rows; the mapping library builds plain
    records, and whether one of its calls throws is a parameter. *)
Record Library : Type := mkLibrary {
  Papa_parse : string -> list Row;
  divIcon_throws : Icon -> option Error;
  marker_throws : number * number -> Icon -> option Error;
  bindPopup_throws : Marker -> string -> option Error;
  addLayer_throws : list Marker -> Marker -> option Error }.

Definition set_layers (ms : list Marker) (w : World) : World :=
  mkWorld ms (total_markers w) (food_drink_markers w) (visible_markers w)
          (filters w) (listeners w) (requests w) (console w).

Definition set_stats (total food visible : N) (w : World) : World :=
  mkWorld (layers w) (Some total) (Some food) (Some visible)
          (filters w) (listeners w) (requests w) (console w).

Definition set_filters (fs : list FilterGroup) (w : World) : World :=
  mkWorld (layers w) (total_markers w) (food_drink_markers w) (visible_markers w)
          fs (listeners w) (requests w) (console w).

Definition set_listeners (data : list Row) (w : World) : World :=
  mkWorld (layers w) (total_markers w) (food_drink_markers w) (visible_markers w)
          (filters w) (Some data) (requests w) (console w).

Definition add_request (url : string) (w : World) : World :=
  mkWorld (layers w) (total_markers w) (food_drink_markers w) (visible_markers w)
          (filters w) (listeners w) (requests w ++ [url]) (console w).

Definition add_log (entry : LogEntry) (w : World) : World :=
  mkWorld (layers w) (total_markers w) (food_drink_markers w) (visible_markers w)
          (filters w) (listeners w) (requests w) (console w ++ [entry]).

Definition console_log (entry : LogEntry) : M World unit := modify (add_log entry).

(** The page before the script has touched it. *)
Definition emptyWorld : World := mkWorld [] None None None [] None [] [].

(* ===================================================================== *)
(** ** createMarkers *)

(** The state of one render pass: the page and the two local counters. *)
Record Pass : Type := mkPass {
  page : World;
  foodDrinkCount : N;
  totalMarkers : N }.

Definition on_page (f : World -> World) (p : Pass) : Pass :=
  mkPass (f (page p)) (foodDrinkCount p) (totalMarkers p).

Definition incrFoodDrink (p : Pass) : Pass :=
  mkPass (page p) (foodDrinkCount p + 1) (totalMarkers p).

Definition incrTotal (p : Pass) : Pass :=
  mkPass (page p) (foodDrinkCount p) (totalMarkers p + 1).

Definition pass_log (entry : LogEntry) : M Pass unit :=
  modify (on_page (add_log entry)).

(** Calls into the mapping library. *)
Definition L_divIcon (lib : Library) (opts : Icon) : M Pass Icon :=
  match divIcon_throws lib opts with
  | Some e => throw e
  | None => ret opts
  end.

Definition L_marker (lib : Library) (at_ : number * number) (i : Icon) : M Pass Marker :=
  match marker_throws lib at_ i with
  | Some e => throw e
  | None => ret (mkMarker at_ i None)
  end.

Definition bindPopup (lib : Library) (m : Marker) (content : string) : M Pass Marker :=
  match bindPopup_throws lib m content with
  | Some e => throw e
  | None => ret (mkMarker (latlng m) (icon m) (Some content))
  end.

Definition addLayer (lib : Library) (m : Marker) : M Pass unit :=
  fun p =>
    match addLayer_throws lib (layers (page p)) m with
    | Some e => (Throw e, p)
    | None => (Ok tt, on_page (set_layers (layers (page p) ++ [m])) p)
    end.

Definition clearLayers : M World unit := modify (set_layers []).

Definition isFoodDrink (row : Row) : bool :=
  match get row "category" with
  | Some c =>
      negb (c =? "") &&
      (includes (toLowerCase c) "food" ||
       includes (toLowerCase c) "restaurant" ||
       includes (toLowerCase c) "cafe" ||
       includes (toLowerCase c) "bar")
  | None => false
  end.

Definition emojiOf (row : Row) : Emoji :=
  if strictEq (get row "categoriesPrimary.name") "Drinks" then beer
  else if strictEq (get row "categoriesPrimary.name") "Food" then pasta
  else pin.

(** The double-quote character, for the HTML below. *)
Definition dq : string := String (ascii_of_nat 34) EmptyString.

Definition popupContent (row : Row) : string :=
  let p0 := "<div class=" ++ dq ++ "popup-content" ++ dq ++ ">" in
  let p1 :=
    if truthy (or_else (get row "name") (get row "title"))
    then p0 ++ "<h3>" ++ toStr (or_else (get row "name") (get row "title")) ++ "</h3>"
    else p0 in
  let p2 :=
    if truthy (get row "subcategoriesPrimary.name")
    then p1 ++ "<div class=" ++ dq ++ "subcategory" ++ dq ++ ">"
            ++ toStr (get row "subcategoriesPrimary.name") ++ "</div>"
    else p1 in
  let p3 :=
    if truthy (get row "urls.website")
    then p2 ++ "<div class=" ++ dq ++ "website" ++ dq ++ "><a href=" ++ dq
            ++ toStr (get row "urls.website") ++ dq ++ " target=" ++ dq ++ "_blank"
            ++ dq ++ ">Website</a></div>"
    else p2 in
  let p4 :=
    if truthy (get row "image")
    then p3 ++ "<img src=" ++ dq ++ toStr (get row "image") ++ dq ++ " alt=" ++ dq
            ++ "Image for " ++ toStr (or_else (get row "name") (get row "title")) ++ dq
            ++ " class=" ++ dq ++ "popup-image" ++ dq ++ ">"
    else p3 in
  let p5 :=
    if truthy (get row "address")
    then
      let a := p4 ++ "<p class=" ++ dq ++ "address" ++ dq ++ "><strong>Address:</strong> "
                  ++ toStr (get row "address") in
      let b := if truthy (get row "postcode")
               then a ++ ", " ++ toStr (get row "postcode") else a in
      b ++ "</p>"
    else p4 in
  let p6 :=
    if truthy (get row "category")
    then p5 ++ "<p><strong>Category:</strong> " ++ toStr (get row "category") ++ "</p>"
    else p5 in
  p6 ++ "</div>".

(** The body of the [try] block for one row. *)
Definition rowBody (lib : Library) (row : Row) : M Pass unit :=
  let lat := parseFloat (get row "latitude") in
  let lng := parseFloat (get row "longitude") in
  if (isNaN lat || isNaN lng)%bool then
    pass_log (LogRow "Invalid coordinates for row:" row)
  else
    (if isFoodDrink row then modify incrFoodDrink else ret tt) ;;
    emojiIcon <- L_divIcon lib (mkIcon "emoji-marker" (emojiOf row) (48, 48)%Z (24, 48)%Z) ;;
    marker <- L_marker lib (lat, lng) emojiIcon ;;
    marker' <- bindPopup lib marker (popupContent row) ;;
    addLayer lib marker' ;;
    modify incrTotal ;;
    p <- getState ;;
    if (totalMarkers p mod 100 =? 0)%N
    then pass_log (LogNumber "Created markers so far:" (totalMarkers p))
    else ret tt.

(** The callback given to [rows.forEach]. *)
Definition rowCallback (lib : Library) (row : Row) : M Pass unit :=
  try_catch (rowBody lib row)
            (fun error => pass_log (LogRowError "Error creating marker for row:" row error)).

Definition renderLoop (lib : Library) (rows : list Row) : M Pass unit :=
  forEach (rowCallback lib) rows.

(** Runs a pass with fresh counters and hands them back at the end. *)
Definition withCounters {A} (m : M Pass A) : M World (N * N) :=
  fun w =>
    match m (mkPass w 0 0) with
    | (Ok _, p) => (Ok (foodDrinkCount p, totalMarkers p), page p)
    | (Throw e, p) => (Throw e, page p)
    end.

Definition createMarkers (lib : Library) (rows : Value) : M World unit :=
  match rows with
  | undefined =>
      throw (TypeError "Cannot read properties of undefined (reading 'length')")
  | array rows =>
      console_log (LogNumber "Starting marker creation with rows:"
                             (N.of_nat (List.length rows))) ;;
      clearLayers ;;
      counts <- withCounters (renderLoop lib rows) ;;
      let '(foodDrinkCount, totalMarkers) := counts in
      console_log (LogNumber "Marker creation complete. Total markers:" totalMarkers) ;;
      console_log (LogNumber "Food/Drink locations:" foodDrinkCount) ;;
      modify (set_stats totalMarkers foodDrinkCount totalMarkers)
  end.

(* ===================================================================== *)
(** ** createFilterControls and applyFilters *)

Definition valueEqb (a b : option string) : bool :=
  match a, b with
  | Some x, Some y => x =? y
  | None, None => true
  | _, _ => false
  end.

(** [[...new Set(xs)]]: the distinct values, in order of first occurrence. *)
Definition addValue (seen : list (option string)) (x : option string)
  : list (option string) :=
  if existsb (valueEqb x) seen then seen else (seen ++ [x])%list.

Definition setOf (xs : list (option string)) : list (option string) :=
  fold_left addValue xs [].

(** [xs.filter(Boolean)]: what is left are non-empty strings. *)
Fixpoint filterBoolean (xs : list (option string)) : list string :=
  match xs with
  | [] => []
  | Some s :: xs' => if s =? "" then filterBoolean xs' else s :: filterBoolean xs'
  | None :: xs' => filterBoolean xs'
  end.

(** [xs.sort()] on strings: ascending in the order of the character codes. *)
Fixpoint insertSorted (x : string) (xs : list string) : list string :=
  match xs with
  | [] => [x]
  | y :: xs' => if String.leb x y then x :: xs else y :: insertSorted x xs'
  end.

Definition sort (xs : list string) : list string := fold_right insertSorted [] xs.

(** [item[column]] is read as the row's own property.  This is what the
    script gets for every column whose name is not the name of a member of
    [Object.prototype] (see [prototypeNames]); for such a name a row that
    lacks the column would read the inherited member instead. *)
Definition uniqueValues (data : list Row) (column : string) : list string :=
  sort (filterBoolean (setOf (map (fun item => get item column) data))).

Definition isFilterable (col : string) : bool :=
  negb (col =? "latitude") && negb (col =? "longitude") &&
  negb (col =? "name") && negb (col =? "title").

(** [column.replace(/_/g, ' ').toUpperCase()], the text of the label. *)
Definition labelText (column : string) : string :=
  toUpperCase (replaceUnderscores column).

Definition appendFilter (g : FilterGroup) (w : World) : World :=
  set_filters (filters w ++ [g]) w.

(** The body of [filterableColumns.forEach].  The options recorded are the
    values the script interpolates into the markup of the [select]; they
    are the option values the page then holds when the column name and the
    values are free of markup characters (see [markupSafe]). *)
Definition addColumnFilter (data : list Row) (column : string) : M World unit :=
  let uniqueValues := uniqueValues data column in
  if (Nat.ltb 0 (List.length uniqueValues) && Nat.ltb (List.length uniqueValues) 50)%bool
  then modify (appendFilter (SelectGroup (labelText column) uniqueValues ""))
  else ret tt.

(** The columns for which a dropdown is offered, in order. *)
Definition filterableColumns (data : list Row) : list string :=
  filter isFilterable
         (match data with
          | [] => []                 (* data[0] || {} *)
          | first :: _ => keys first
          end).

Definition createFilterControls (data : Value) : M World unit :=
  modify (set_filters []) ;;
  modify (appendFilter (SearchGroup "")) ;;
  match data with
  | undefined =>
      throw (TypeError "Cannot read properties of undefined (reading '0')")
  | array data =>
      forEach (addColumnFilter data) (filterableColumns data) ;;
      modify (set_listeners data)
  end.

(** [searchInput.value]. *)
Fixpoint searchValue (fs : list FilterGroup) : string :=
  match fs with
  | [] => ""
  | SearchGroup v :: _ => v
  | SelectGroup _ _ _ :: fs' => searchValue fs'
  end.

(** One entry per dropdown: the lower-cased text of its label, and its
    current value. *)
Fixpoint filterValues (fs : list FilterGroup) : list (string * string) :=
  match fs with
  | [] => []
  | SearchGroup _ :: fs' => filterValues fs'
  | SelectGroup label _ v :: fs' => (toLowerCase label, v) :: filterValues fs'
  end.

(** The test of [data.filter] inside [applyFilters]. *)
Definition itemPasses (searchTerm : string) (filterValues : list (string * string))
           (item : Row) : bool :=
  let columnFilters :=
    forallb (fun f : string * string =>
               let (column, value) := f in
               if negb (truthy (Some value)) then true
               else strictEq (get item column) value)
            filterValues in
  if truthy (Some searchTerm) then
    let itemValues := toLowerCase (join " " (values item)) in
    if negb (includes itemValues searchTerm) then false
    else columnFilters
  else columnFilters.

Definition filteredData (data : list Row) (fs : list FilterGroup) : list Row :=
  let searchTerm := toLowerCase (searchValue fs) in
  filter (itemPasses searchTerm (filterValues fs)) data.

Definition applyFilters (lib : Library) (data : list Row) : M World unit :=
  w <- getState ;;
  createMarkers lib (array (filteredData data (filters w))).

(** The user types in the search box, or picks an option of the [i]-th
    dropdown; the listener, if attached, then runs [applyFilters]. *)
Fixpoint typeSearch (s : string) (fs : list FilterGroup) : list FilterGroup :=
  match fs with
  | [] => []
  | SearchGroup _ :: fs' => SearchGroup s :: fs'
  | g :: fs' => g :: typeSearch s fs'
  end.

Fixpoint pickOption (i : nat) (v : string) (fs : list FilterGroup) : list FilterGroup :=
  match fs with
  | [] => []
  | SearchGroup s :: fs' => SearchGroup s :: pickOption i v fs'
  | SelectGroup l os old :: fs' =>
      match i with
      | O => SelectGroup l os (if existsb (String.eqb v) os then v else "") :: fs'
      | S i' => SelectGroup l os old :: pickOption i' v fs'
      end
  end.

Definition onFilterEvent (lib : Library) (change : list FilterGroup -> list FilterGroup)
  : M World unit :=
  w <- getState ;;
  modify (set_filters (change (filters w))) ;;
  match listeners w with
  | Some data => applyFilters lib data
  | None => ret tt
  end.

(* ===================================================================== *)
(** ** loadCSV and the DOMContentLoaded handler *)

(** How the request for the data file ends. *)
Inductive FetchOutcome : Type :=
| NetworkFailure (e : Error)
| Response (ok : bool) (status : N) (text : string).

(** The test of [rows.filter] in the loader: [row.latitude && row.longitude]. *)
Definition hasCoords (row : Row) : bool :=
  truthy (get row "latitude") && truthy (get row "longitude").

Definition keepRow (row : Row) : M World bool :=
  (if negb (hasCoords row)
   then console_log (LogRow "Row missing coordinates:" row)
   else ret tt) ;;
  ret (hasCoords row).

(** The promise chain started by [loadCSV]: the two [then] callbacks and
    the final [catch]. *)
Definition fetchChain (lib : Library) (outcome : FetchOutcome) : M World unit :=
  try_catch
    (csvText <-
       match outcome with
       | NetworkFailure e => throw e
       | Response ok status text =>
           console_log (LogNumber "CSV fetch response status:" status) ;;
           if negb ok then throw (HttpError status) else ret text
       end ;;
     console_log (LogText "CSV text loaded, first 500 chars:" (substring 0 500 csvText)) ;;
     let rows := Papa_parse lib csvText in
     console_log (LogNumber "CSV parsed, number of rows:" (N.of_nat (List.length rows))) ;;
     match rows with
     | [] => throw (TypeError "Cannot convert undefined or null to object")
     | first :: _ => console_log (LogKeys "CSV headers:" (keys first))
     end ;;
     console_log (LogRows "First 3 rows:" (firstn 3 rows)) ;;
     validRows <- filterM keepRow rows ;;
     console_log (LogNumber "Rows with valid coordinates:"
                            (N.of_nat (List.length validRows))) ;;
     createMarkers lib (array validRows))
    (fun error => console_log (LogError "Error loading CSV:" error)).

(** What the caller of [loadCSV] gets: the request is started, its chain
    is neither awaited nor returned, and the function ends without a
    value. *)
Definition loadCSV : M World Value :=
  console_log (LogText "Starting CSV load..." "") ;;
  modify (add_request "data.csv") ;;
  ret undefined.

(** The body of the [DOMContentLoaded] handler. *)
Definition onLoaded (lib : Library) : M World unit :=
  data <- loadCSV ;;
  createFilterControls data ;;
  createMarkers lib data.

(** Start-up: the handler runs to its end (an exception it throws is
    reported to nobody), then the request settles and its chain runs. *)
Definition startup (lib : Library) (outcome : FetchOutcome) : M World (Result unit) :=
  handled <- attempt (onLoaded lib) ;;
  fetchChain lib outcome ;;
  ret handled.

(* ===================================================================== *)
(** ** Sample data used in the examples below *)

(** A mapping library none of whose calls throws, on top of a given parser. *)
Definition quietLibrary (parse : string -> list Row) : Library :=
  mkLibrary parse (fun _ => None) (fun _ _ => None) (fun _ _ => None) (fun _ _ => None).

(** A mapping library whose [L.marker] always throws. *)
Definition brokenMarkerLibrary (parse : string -> list Row) : Library :=
  mkLibrary parse (fun _ => None)
            (fun _ _ => Some (ExternalError "marker")) (fun _ _ => None) (fun _ _ => None).

Definition cafeRow : Row :=
  [("latitude", "40.7"); ("longitude", "-74.0"); ("category", "Cafe")].

Definition badRow : Row :=
  [("latitude", "bad"); ("longitude", "-74.0"); ("category", "Food")].

Definition scenarioRows : list Row := [cafeRow; badRow].

Definition infinityRow : Row :=
  [("latitude", "Infinity"); ("longitude", "-74.0")].

Definition barRows : list Row :=
  [ [("latitude", "40.7"); ("longitude", "-74.0"); ("category", "Bar")];
    [("latitude", "40.8"); ("longitude", "-74.1"); ("category", "Food")];
    [("latitude", "40.9"); ("longitude", "-74.2"); ("category", "Bar")] ].

Definition blueBar : Row := [("name", "Blue Bar"); ("category", "Bar")].

Definition drinksRows : list Row :=
  [ [("latitude", "40.7"); ("longitude", "-74.0"); ("categoriesPrimary.name", "Drinks")];
    [("latitude", "40.8"); ("longitude", "-74.1"); ("categoriesPrimary.name", "Food")] ].

(** The first record is short of its last field. *)
Definition raggedRows : list Row :=
  [ [("latitude", "40.7"); ("longitude", "-74.0")];
    [("latitude", "40.8"); ("longitude", "-73.9"); ("category", "Bar")] ].

(** A mapping library whose [L.divIcon] throws for the drink icon only. *)
Definition noBeerLibrary (parse : string -> list Row) : Library :=
  mkLibrary parse
            (fun i => match html i with
                      | beer => Some (ExternalError "icon")
                      | _ => None
                      end)
            (fun _ _ => None) (fun _ _ => None) (fun _ _ => None).

(* ===================================================================== *)
(** ** What one row does to a pass, as a function *)

(** The three ways the [try] block of a row can end. *)
Inductive RowOutcome : Type :=
| Skipped
| Rendered (m : Marker)
| Failed (e : Error).

(** The outcome for [row] when [shown] is the current content of the
    marker collection. *)
Definition rowOutcome (lib : Library) (shown : list Marker) (row : Row) : RowOutcome :=
  let lat := parseFloat (get row "latitude") in
  let lng := parseFloat (get row "longitude") in
  if (isNaN lat || isNaN lng)%bool then Skipped
  else
    let i := mkIcon "emoji-marker" (emojiOf row) (48, 48)%Z (24, 48)%Z in
    match divIcon_throws lib i with
    | Some e => Failed e
    | None =>
        match marker_throws lib (lat, lng) i with
        | Some e => Failed e
        | None =>
            match bindPopup_throws lib (mkMarker (lat, lng) i None) (popupContent row) with
            | Some e => Failed e
            | None =>
                let m := mkMarker (lat, lng) i (Some (popupContent row)) in
                match addLayer_throws lib shown m with
                | Some e => Failed e
                | None => Rendered m
                end
            end
        end
    end.

(** The marker a row stands for. *)
Definition markerOf (row : Row) : Marker :=
  mkMarker (parseFloat (get row "latitude"), parseFloat (get row "longitude"))
           (mkIcon "emoji-marker" (emojiOf row) (48, 48)%Z (24, 48)%Z)
           (Some (popupContent row)).

Definition showRow (lib : Library) (shown : list Marker) (row : Row) : list Marker :=
  match rowOutcome lib shown row with
  | Rendered m => (shown ++ [m])%list
  | _ => shown
  end.

(** The markers built from a row sequence, starting from an empty collection. *)
Definition rendered (lib : Library) (rows : list Row) : list Marker :=
  fold_left (showRow lib) rows [].

Definition countFood (row : Row) (p : Pass) : Pass :=
  if isFoodDrink row then incrFoodDrink p else p.

Definition passStep (lib : Library) (p : Pass) (row : Row) : Pass :=
  match rowOutcome lib (layers (page p)) row with
  | Skipped => on_page (add_log (LogRow "Invalid coordinates for row:" row)) p
  | Rendered m =>
      let p1 := incrTotal (on_page (set_layers (layers (page p) ++ [m])) (countFood row p)) in
      if (totalMarkers p1 mod 100 =? 0)%N
      then on_page (add_log (LogNumber "Created markers so far:" (totalMarkers p1))) p1
      else p1
  | Failed e =>
      on_page (add_log (LogRowError "Error creating marker for row:" row e))
              (countFood row p)
  end.

(** The page as [createMarkers] leaves it before the loop starts. *)
Definition passStart (rows : list Row) (w : World) : Pass :=
  mkPass (set_layers []
            (add_log (LogNumber "Starting marker creation with rows:"
                                (N.of_nat (List.length rows))) w)) 0 0.

(** The parts of the page a pass does not touch inside its loop. *)
Definition sameControls (w w' : World) : Prop :=
  total_markers w' = total_markers w /\
  food_drink_markers w' = food_drink_markers w /\
  visible_markers w' = visible_markers w /\
  filters w' = filters w /\
  listeners w' = listeners w /\
  requests w' = requests w.

(** The page [createMarkers] leaves, given the state in which its loop ended. *)
Definition passEnd (p : Pass) : World :=
  set_stats (totalMarkers p) (foodDrinkCount p) (totalMarkers p)
    (add_log (LogNumber "Food/Drink locations:" (foodDrinkCount p))
       (add_log (LogNumber "Marker creation complete. Total markers:" (totalMarkers p))
          (page p))).

(** No call of the mapping library throws. *)
Definition neverThrows (lib : Library) : Prop :=
  (forall i, divIcon_throws lib i = None) /\
  (forall at_ i, marker_throws lib at_ i = None) /\
  (forall m c, bindPopup_throws lib m c = None) /\
  (forall shown m, addLayer_throws lib shown m = None).

(** The error a request ends with, if it does not succeed. *)
Definition fetchError (outcome : FetchOutcome) : option Error :=
  match outcome with
  | NetworkFailure e => Some e
  | Response false status _ => Some (HttpError status)
  | Response true _ _ => None
  end.

(** The columns whose dropdown is built, and the dropdown of a column. *)
Definition offeredColumns (data : list Row) : list string :=
  filter (fun c => Nat.ltb 0 (List.length (uniqueValues data c)) &&
                   Nat.ltb (List.length (uniqueValues data c)) 50)
         (filterableColumns data).

Definition dropdownOf (data : list Row) (column : string) : FilterGroup :=
  SelectGroup (labelText column) (uniqueValues data column) "".

(** The order of [sort], and its strict part. *)
Definition lebP (a b : string) : Prop := String.leb a b = true.
Definition ltbP (a b : string) : Prop := String.ltb a b = true.

(** Several console entries, in order. *)
Definition add_logs (entries : list LogEntry) (w : World) : World :=
  fold_left (fun w entry => add_log entry w) entries w.

(** The entries the loader logs for the rows it drops. *)
Definition missingLogs (rows : list Row) : list LogEntry :=
  map (LogRow "Row missing coordinates:") (filter (fun row => negb (hasCoords row)) rows).

(** [sub] occurs in [s]. *)
Definition occursIn (sub s : string) : Prop :=
  exists before after : string, s = before ++ sub ++ after.

(** Every character of [s] satisfies [f]. *)
Fixpoint allChars (f : ascii -> bool) (s : string) : bool :=
  match s with
  | EmptyString => true
  | String c s' => f c && allChars f s'
  end.

(** An ASCII character; on strings of such characters [toLowerCase] and
    [toUpperCase] are JavaScript's. *)
Definition asciiChar (c : ascii) : bool := Nat.ltb (nat_of_ascii c) 128.

(** The names of the members of [Object.prototype]: what a row that lacks
    such a column reads under that name is the inherited member, not
    [undefined]. *)
Definition prototypeNames : list string :=
  [ "constructor"; "hasOwnProperty"; "isPrototypeOf"; "propertyIsEnumerable";
    "toLocaleString"; "toString"; "valueOf"; "__proto__";
    "__defineGetter__"; "__defineSetter__"; "__lookupGetter__"; "__lookupSetter__" ].

(** A printable ASCII character other than the double quote, the
    ampersand and the angle brackets: text made of such characters comes
    back unchanged from the markup of an option. *)
Definition htmlSafeChar (c : ascii) : bool :=
  let n := nat_of_ascii c in
  Nat.leb 32 n && Nat.leb n 126 &&
  negb (Nat.eqb n 34) && negb (Nat.eqb n 38) && negb (Nat.eqb n 60) && negb (Nat.eqb n 62).

(** The name of [column] and all its values in [data] are free of markup
    characters. *)
Definition markupSafe (data : list Row) (column : string) : Prop :=
  allChars htmlSafeChar column = true /\
  forall item v, In item data -> get item column = Some v ->
                 allChars htmlSafeChar v = true.

(** The coordinate check of [createMarkers] lets the row through. *)
Definition coordsOk (row : Row) : bool :=
  negb (isNaN (parseFloat (get row "latitude")) ||
        isNaN (parseFloat (get row "longitude"))).

(** The rows a pass counts as food or drink. *)
Definition foodRows (rows : list Row) : list Row :=
  filter (fun row => coordsOk row && isFoodDrink row) rows.

(** A character the label round trip gives back: no upper-case letter and
    no underscore. *)
Definition plainChar (c : ascii) : bool :=
  let n := nat_of_ascii c in
  negb (Nat.leb 65 n && Nat.leb n 90) && negb (Ascii.eqb c "_").

(** The six sections of a popup, each empty when its field is. *)
Definition titleSection (row : Row) : string :=
  if truthy (or_else (get row "name") (get row "title"))
  then "<h3>" ++ toStr (or_else (get row "name") (get row "title")) ++ "</h3>"
  else "".

Definition subcategorySection (row : Row) : string :=
  if truthy (get row "subcategoriesPrimary.name")
  then "<div class=" ++ dq ++ "subcategory" ++ dq ++ ">"
       ++ toStr (get row "subcategoriesPrimary.name") ++ "</div>"
  else "".

Definition websiteSection (row : Row) : string :=
  if truthy (get row "urls.website")
  then "<div class=" ++ dq ++ "website" ++ dq ++ "><a href=" ++ dq
       ++ toStr (get row "urls.website") ++ dq ++ " target=" ++ dq ++ "_blank"
       ++ dq ++ ">Website</a></div>"
  else "".

Definition imageSection (row : Row) : string :=
  if truthy (get row "image")
  then "<img src=" ++ dq ++ toStr (get row "image") ++ dq ++ " alt=" ++ dq
       ++ "Image for " ++ toStr (or_else (get row "name") (get row "title")) ++ dq
       ++ " class=" ++ dq ++ "popup-image" ++ dq ++ ">"
  else "".

Definition addressSection (row : Row) : string :=
  if truthy (get row "address")
  then "<p class=" ++ dq ++ "address" ++ dq ++ "><strong>Address:</strong> "
       ++ toStr (get row "address")
       ++ (if truthy (get row "postcode") then ", " ++ toStr (get row "postcode") else "")
       ++ "</p>"
  else "".

Definition categorySection (row : Row) : string :=
  if truthy (get row "category")
  then "<p><strong>Category:</strong> " ++ toStr (get row "category") ++ "</p>"
  else "".

(* ===================================================================== *)
(** * Properties *)

(** ** The render pass *)

(** Case analysis on what a step does: the outcome of the row, whether the
    progress line is logged, and whether the row is food or drink. *)
Ltac step_cases p row :=
  unfold passStep, countFood;
  destruct (rowOutcome _ (layers (page p)) row); cbn -[N.modulo];
  try destruct (_ =? 0)%N; destruct (isFoodDrink row).

Section RenderPass.

Variable lib : Library.

Lemma rowBody_outcome (row : Row) (p : Pass) :
  rowBody lib row p =
  match rowOutcome lib (layers (page p)) row with
  | Skipped => (Ok tt, on_page (add_log (LogRow "Invalid coordinates for row:" row)) p)
  | Rendered _ => (Ok tt, passStep lib p row)
  | Failed e => (Throw e, countFood row p)
  end.
Proof.
  destruct p as [w f t].
  unfold rowBody, passStep, rowOutcome, countFood, L_divIcon, L_marker,
    JSString.truthy.
  cbn [page layers].
  destruct (isNaN (parseFloat (get row "latitude")) ||
            isNaN (parseFloat (get row "longitude")))%bool; [reflexivity|].
  unfold bind, bindPopup, addLayer, modify, ret, throw, getState, pass_log.
  destruct (isFoodDrink row); cbn -[popupContent N.modulo];
    repeat match goal with
      | |- context [match ?o with Some _ => _ | None => _ end] =>
          destruct o; cbn -[popupContent N.modulo]; try reflexivity
      end;
    destruct (_ =? 0)%N; reflexivity.
Qed.

Lemma rowCallback_step (row : Row) (p : Pass) :
  rowCallback lib row p = (Ok tt, passStep lib p row).
Proof.
  unfold rowCallback, try_catch. rewrite rowBody_outcome.
  unfold passStep.
  destruct (rowOutcome lib (layers (page p)) row); reflexivity.
Qed.

Lemma renderLoop_fold (rows : list Row) (p : Pass) :
  renderLoop lib rows p = (Ok tt, fold_left (passStep lib) rows p).
Proof.
  revert p. induction rows as [|row rows IH]; intros p; [reflexivity|].
  unfold renderLoop in *. cbn [forEach fold_left].
  unfold bind at 1. rewrite rowCallback_step. apply IH.
Qed.

Lemma rowBody_throws_iff (row : Row) (p : Pass) (e : Error) :
  fst (rowBody lib row p) = Throw e <->
  rowOutcome lib (layers (page p)) row = Failed e.
Proof.
  rewrite rowBody_outcome.
  destruct (rowOutcome lib (layers (page p)) row); cbn [fst];
    split; intros H; try discriminate; congruence.
Qed.

(** *** What a step leaves alone, and what it changes *)

Lemma passStep_layers (p : Pass) (row : Row) :
  layers (page (passStep lib p row)) = showRow lib (layers (page p)) row.
Proof.
  unfold showRow. step_cases p row; reflexivity.
Qed.

Lemma passStep_total (p : Pass) (row : Row) :
  totalMarkers (passStep lib p row) =
  match rowOutcome lib (layers (page p)) row with
  | Rendered _ => (totalMarkers p + 1)%N
  | _ => totalMarkers p
  end.
Proof.
  step_cases p row; reflexivity.
Qed.

Lemma passStep_food (p : Pass) (row : Row) :
  foodDrinkCount (passStep lib p row) =
  match rowOutcome lib (layers (page p)) row with
  | Skipped => foodDrinkCount p
  | _ => if isFoodDrink row then (foodDrinkCount p + 1)%N else foodDrinkCount p
  end.
Proof.
  step_cases p row; reflexivity.
Qed.

Lemma passStep_controls (p : Pass) (row : Row) :
  sameControls (page p) (page (passStep lib p row)).
Proof.
  unfold sameControls. step_cases p row; cbn; repeat split.
Qed.

Lemma passStep_console (p : Pass) (row : Row) (x : LogEntry) :
  In x (console (page p)) -> In x (console (page (passStep lib p row))).
Proof.
  intros H. step_cases p row; cbn; repeat (apply in_or_app; left); exact H.
Qed.

Lemma passStep_logs_failure (p : Pass) (row : Row) (e : Error) :
  rowOutcome lib (layers (page p)) row = Failed e ->
  In (LogRowError "Error creating marker for row:" row e)
     (console (page (passStep lib p row))).
Proof.
  intros H. unfold passStep. rewrite H. unfold countFood.
  destruct (isFoodDrink row); cbn; apply in_or_app; right; left; reflexivity.
Qed.

(** *** The whole loop *)

Lemma fold_layers (rows : list Row) (p : Pass) :
  layers (page (fold_left (passStep lib) rows p)) =
  fold_left (showRow lib) rows (layers (page p)).
Proof.
  revert p. induction rows as [|row rows IH]; intros p; cbn [fold_left].
  - reflexivity.
  - rewrite IH, passStep_layers. reflexivity.
Qed.

Lemma fold_controls (rows : list Row) (p : Pass) :
  sameControls (page p) (page (fold_left (passStep lib) rows p)).
Proof.
  revert p. induction rows as [|row rows IH]; intros p; cbn [fold_left].
  - repeat split.
  - specialize (IH (passStep lib p row)).
    pose proof (passStep_controls p row) as Hs.
    unfold sameControls in *.
    repeat match goal with H : _ /\ _ |- _ => destruct H end.
    repeat split; congruence.
Qed.

Lemma fold_console (rows : list Row) (p : Pass) (x : LogEntry) :
  In x (console (page p)) ->
  In x (console (page (fold_left (passStep lib) rows p))).
Proof.
  revert p. induction rows as [|row rows IH]; intros p H; cbn [fold_left].
  - exact H.
  - apply IH, passStep_console, H.
Qed.

(** The counter of rendered markers follows the size of the collection. *)
Lemma fold_total (rows : list Row) (p : Pass) :
  totalMarkers p = N.of_nat (List.length (layers (page p))) ->
  totalMarkers (fold_left (passStep lib) rows p) =
  N.of_nat (List.length (layers (page (fold_left (passStep lib) rows p)))).
Proof.
  revert p. induction rows as [|row rows IH]; intros p H; cbn [fold_left].
  - exact H.
  - apply IH. rewrite passStep_total, passStep_layers. unfold showRow.
    destruct (rowOutcome lib (layers (page p)) row); try exact H.
    rewrite length_app. cbn [List.length]. lia.
Qed.

Lemma rowOutcome_marker (shown : list Marker) (row : Row) (m : Marker) :
  rowOutcome lib shown row = Rendered m -> m = markerOf row.
Proof.
  unfold rowOutcome, markerOf.
  destruct (isNaN _ || isNaN _)%bool; [discriminate|].
  repeat match goal with
    | |- context [match ?o with Some _ => _ | None => _ end] =>
        destruct o; try discriminate
    end.
  intros H. injection H as <-. reflexivity.
Qed.

Lemma showRow_from (rows : list Row) (shown : list Marker) (m : Marker) :
  In m (fold_left (showRow lib) rows shown) ->
  In m shown \/ exists row, In row rows /\ m = markerOf row.
Proof.
  revert shown. induction rows as [|row rows IH]; intros shown H; cbn [fold_left] in H.
  - left. exact H.
  - apply IH in H. destruct H as [H | (r & Hr & ->)].
    + unfold showRow in H.
      destruct (rowOutcome lib shown row) eqn:Ho; try (left; exact H).
      apply in_app_or in H. destruct H as [H | [<- | []]].
      * left. exact H.
      * right. exists row. split; [left; reflexivity|].
        eapply rowOutcome_marker, Ho.
    + right. exists r. split; [right; exact Hr | reflexivity].
Qed.

(** [createMarkers] on an array: the pass always ends normally, and the
    page it leaves is the page of the loop with the stats written. *)
Lemma createMarkers_run (rows : list Row) (w : World) :
  createMarkers lib (array rows) w =
  (Ok tt, passEnd (fold_left (passStep lib) rows (passStart rows w))).
Proof.
  unfold createMarkers, bind, console_log, clearLayers, modify, withCounters.
  rewrite renderLoop_fold. reflexivity.
Qed.

Lemma createMarkers_layers (rows : list Row) (w : World) :
  layers (exec (createMarkers lib (array rows)) w) = rendered lib rows.
Proof.
  unfold exec. rewrite createMarkers_run. cbn [snd passEnd].
  unfold passEnd. cbn [layers set_stats add_log].
  rewrite fold_layers. reflexivity.
Qed.

Lemma createMarkers_total (rows : list Row) (w : World) :
  total_markers (exec (createMarkers lib (array rows)) w) =
  Some (N.of_nat (List.length (rendered lib rows))).
Proof.
  unfold exec. rewrite createMarkers_run. cbn [snd].
  unfold passEnd. cbn [total_markers set_stats].
  rewrite fold_total by reflexivity.
  rewrite fold_layers. reflexivity.
Qed.

Lemma createMarkers_controls (rows : list Row) (w : World) :
  filters (exec (createMarkers lib (array rows)) w) = filters w /\
  listeners (exec (createMarkers lib (array rows)) w) = listeners w /\
  requests (exec (createMarkers lib (array rows)) w) = requests w.
Proof.
  unfold exec. rewrite createMarkers_run. cbn [snd].
  unfold passEnd. cbn [filters listeners requests set_stats add_log].
  destruct (fold_controls rows (passStart rows w)) as (_ & _ & _ & Hf & Hl & Hr).
  rewrite Hf, Hl, Hr. repeat split.
Qed.

Lemma rendered_app (pre post : list Row) :
  rendered lib (pre ++ post) = fold_left (showRow lib) post (rendered lib pre).
Proof. unfold rendered. apply fold_left_app. Qed.

Lemma rowOutcome_rendered (shown : list Marker) (row : Row) :
  neverThrows lib ->
  parseFloat (get row "latitude") <> NaN ->
  parseFloat (get row "longitude") <> NaN ->
  rowOutcome lib shown row = Rendered (markerOf row).
Proof.
  intros (Hi & Hm & Hb & Ha) Hlat Hlng. unfold rowOutcome, markerOf.
  destruct (parseFloat (get row "latitude")); [congruence| |];
    destruct (parseFloat (get row "longitude")); try congruence;
    cbn [isNaN orb]; rewrite Hi, Hm, Hb, Ha; reflexivity.
Qed.

Lemma showRow_all (rows : list Row) (shown : list Marker) :
  neverThrows lib ->
  Forall (fun row => parseFloat (get row "latitude") <> NaN /\
                     parseFloat (get row "longitude") <> NaN) rows ->
  fold_left (showRow lib) rows shown = (shown ++ map markerOf rows)%list.
Proof.
  intros Hq Hall. revert shown.
  induction Hall as [|row rows [Hlat Hlng] _ IH]; intros shown; cbn [fold_left map].
  - now rewrite app_nil_r.
  - rewrite IH. unfold showRow. rewrite rowOutcome_rendered by assumption.
    rewrite <- app_assoc. reflexivity.
Qed.

End RenderPass.

(** *** Claims on the render pass *)

(** C4. After a render pass over [rows], whatever the page held before, the
    marker collection is exactly the sequence of markers built from [rows]
    starting from an empty collection: the pass ends normally, every marker
    shown is the marker of an input row, nothing shown earlier survives, and
    the total and visible counts are the size of the collection.  When no
    library call throws and no coordinate is NaN, the collection is the
    markers of all the rows, in order. *)
Theorem createMarkers_replaces_marker_set (lib : Library) (rows : list Row) (w : World) :
  let w' := exec (createMarkers lib (array rows)) w in
  fst (createMarkers lib (array rows) w) = Ok tt /\
  layers w' = rendered lib rows /\
  layers w' = layers (exec (createMarkers lib (array rows)) emptyWorld) /\
  (forall m, In m (layers w') -> exists row, In row rows /\ m = markerOf row) /\
  total_markers w' = Some (N.of_nat (List.length (layers w'))) /\
  visible_markers w' = total_markers w' /\
  (neverThrows lib ->
   Forall (fun row => parseFloat (get row "latitude") <> NaN /\
                      parseFloat (get row "longitude") <> NaN) rows ->
   layers w' = map markerOf rows).
Proof.
  cbv zeta. rewrite !createMarkers_layers, createMarkers_total.
  repeat split.
  - rewrite createMarkers_run. reflexivity.
  - intros m H. unfold rendered in H.
    apply showRow_from in H. destruct H as [[] | H]. exact H.
  - unfold exec. rewrite createMarkers_run. cbn [snd]. unfold passEnd.
    cbn [visible_markers set_stats].
    rewrite fold_total by reflexivity. rewrite fold_layers. reflexivity.
  - intros Hq Hall. unfold rendered. rewrite showRow_all by assumption. reflexivity.
Qed.

Lemma createMarkers_replaces_marker_set_witness :
  layers (exec (createMarkers (quietLibrary (fun _ => [])) (array [cafeRow; infinityRow]))
               (set_layers [markerOf badRow] emptyWorld))
  = [markerOf cafeRow; markerOf infinityRow].
Proof.
  destruct (createMarkers_replaces_marker_set
              (quietLibrary (fun _ => [])) [cafeRow; infinityRow]
              (set_layers [markerOf badRow] emptyWorld))
    as (_ & _ & _ & _ & _ & _ & Hall).
  apply Hall.
  - repeat split.
  - repeat constructor; vm_compute; discriminate.
Defined.

(** C8, as the code has it.  A row one of whose coordinates parses to NaN
    is skipped: the row callback only logs it, so nothing is rendered or
    counted and the pass goes on.  A row whose coordinates both parse to a
    number other than NaN is not skipped: either a library call throws for
    it, or its marker is added and counted.  Rows with finite coordinates
    are among the latter. *)
Theorem createMarkers_skips_nan_rows (lib : Library) (row : Row) (p : Pass) :
  let lat := parseFloat (get row "latitude") in
  let lng := parseFloat (get row "longitude") in
  let p' := exec (rowCallback lib row) p in
  (lat = NaN \/ lng = NaN ->
   rowCallback lib row p =
   (Ok tt, on_page (add_log (LogRow "Invalid coordinates for row:" row)) p)) /\
  (lat <> NaN -> lng <> NaN ->
   (exists e, fst (rowBody lib row p) = Throw e) \/
   (layers (page p') = (layers (page p) ++ [markerOf row])%list /\
    totalMarkers p' = (totalMarkers p + 1)%N)) /\
  (geolocatable row = true -> lat <> NaN /\ lng <> NaN).
Proof.
  cbv zeta. unfold exec. rewrite rowCallback_step. cbn [snd].
  split; [|split].
  - intros H. unfold passStep, rowOutcome.
    destruct H as [-> | ->]; cbn [isNaN orb]; [|rewrite orb_true_r]; reflexivity.
  - intros Hlat Hlng.
    destruct (rowOutcome lib (layers (page p)) row) as [|m|e] eqn:Ho.
    + exfalso. unfold rowOutcome in Ho.
      destruct (parseFloat (get row "latitude")); [congruence| |];
        destruct (parseFloat (get row "longitude")); try congruence;
        cbn [isNaN orb] in Ho;
        repeat match type of Ho with
          | context [match ?o with Some _ => _ | None => _ end] => destruct o
          end; discriminate.
    + right. rewrite passStep_layers, passStep_total. unfold showRow. rewrite Ho.
      apply rowOutcome_marker in Ho. subst m. split; reflexivity.
    + left. exists e. apply rowBody_throws_iff. exact Ho.
  - unfold geolocatable. intros H. apply andb_true_iff in H. destruct H as [H1 H2].
    split; intros E; [rewrite E in H1 | rewrite E in H2]; discriminate.
Qed.

Lemma createMarkers_skips_nan_rows_witness :
  rowCallback (quietLibrary (fun _ => [])) badRow (mkPass emptyWorld 0 0) =
  (Ok tt, on_page (add_log (LogRow "Invalid coordinates for row:" badRow))
                  (mkPass emptyWorld 0 0)) /\
  layers (page (exec (rowCallback (quietLibrary (fun _ => [])) cafeRow)
                     (mkPass emptyWorld 0 0))) = [markerOf cafeRow].
Proof.
  pose proof (createMarkers_skips_nan_rows (quietLibrary (fun _ => [])) badRow
                (mkPass emptyWorld 0 0)) as Hbad.
  pose proof (createMarkers_skips_nan_rows (quietLibrary (fun _ => [])) cafeRow
                (mkPass emptyWorld 0 0)) as Hcafe.
  cbv zeta in Hbad, Hcafe.
  destruct Hbad as (Hskip & _). destruct Hcafe as (_ & Hshow & _).
  split.
  - apply Hskip. left. vm_compute. reflexivity.
  - destruct Hshow as [(e & He) | (Hl & _)].
    + vm_compute. discriminate.
    + vm_compute. discriminate.
    + vm_compute in He. discriminate.
    + exact Hl.
Defined.

(** C8, counterexample to the claim as worded.  The latitude "Infinity"
    does not parse to a finite number, yet the row is rendered and counted. *)
Lemma infinite_coordinate_is_rendered :
  geolocatable infinityRow = false /\
  layers (exec (createMarkers (quietLibrary (fun _ => [])) (array [infinityRow]))
               emptyWorld) = [markerOf infinityRow] /\
  total_markers (exec (createMarkers (quietLibrary (fun _ => [])) (array [infinityRow]))
                      emptyWorld) = Some 1%N.
Proof. vm_compute. repeat split. Qed.

(** C9. If building the marker or popup of [row] throws [e] when the rows
    before it have been processed, the pass over [pre ++ row :: post] still
    ends normally, the error is logged for that row, and the rows after it
    are processed as if the failing row were not there: the pass shows the
    same markers and the same total as the pass over [pre ++ post]. *)
Theorem createMarkers_isolates_row_failure
        (lib : Library) (pre : list Row) (row : Row) (post : list Row)
        (w : World) (e : Error) :
  rowOutcome lib (rendered lib pre) row = Failed e ->
  let run := createMarkers lib (array (pre ++ row :: post)) w in
  fst run = Ok tt /\
  In (LogRowError "Error creating marker for row:" row e) (console (snd run)) /\
  layers (snd run) = layers (exec (createMarkers lib (array (pre ++ post))) w) /\
  total_markers (snd run) =
    total_markers (exec (createMarkers lib (array (pre ++ post))) w).
Proof.
  intros Ho. cbv zeta.
  assert (Hsame : rendered lib (pre ++ row :: post) = rendered lib (pre ++ post)).
  { rewrite !rendered_app. cbn [fold_left]. unfold showRow at 2. rewrite Ho.
    reflexivity. }
  split; [rewrite createMarkers_run; reflexivity|].
  split.
  - rewrite createMarkers_run. cbn [snd]. unfold passEnd.
    cbn [console set_stats add_log].
    repeat (apply in_or_app; left).
    rewrite fold_left_app. cbn [fold_left].
    apply fold_console, passStep_logs_failure.
    rewrite fold_layers. exact Ho.
  - split.
    + change (snd (createMarkers lib (array (pre ++ row :: post)) w))
        with (exec (createMarkers lib (array (pre ++ row :: post))) w).
      rewrite !createMarkers_layers. exact Hsame.
    + change (snd (createMarkers lib (array (pre ++ row :: post)) w))
        with (exec (createMarkers lib (array (pre ++ row :: post))) w).
      rewrite !createMarkers_total, Hsame. reflexivity.
Qed.

Lemma createMarkers_isolates_row_failure_witness :
  let lib := noBeerLibrary (fun _ => []) in
  let drink := [("latitude", "40.8"); ("longitude", "-74.1");
                ("categoriesPrimary.name", "Drinks")] in
  rowOutcome lib (rendered lib [cafeRow]) drink = Failed (ExternalError "icon") /\
  layers (snd (createMarkers lib (array (([cafeRow] ++ drink :: [infinityRow])%list)) emptyWorld))
  = [markerOf cafeRow; markerOf infinityRow].
Proof.
  cbv zeta. split; [vm_compute; reflexivity|].
  destruct (createMarkers_isolates_row_failure
              (noBeerLibrary (fun _ => [])) [cafeRow]
              [("latitude", "40.8"); ("longitude", "-74.1");
               ("categoriesPrimary.name", "Drinks")]
              [infinityRow] emptyWorld (ExternalError "icon"))
    as (_ & _ & Hl & _).
  - vm_compute. reflexivity.
  - refine (eq_trans Hl _). vm_compute. reflexivity.
Defined.

(** C10, the code at a failing input.  With a mapping library whose
    [L.marker] throws, the pass over the single row [cafeRow] writes a
    food/drink count of 1 next to a total of 0: the row was counted as
    food/drink before its marker was built, and no marker was added. *)
Theorem food_count_can_exceed_total :
  let w := exec (createMarkers (brokenMarkerLibrary (fun _ => [])) (array [cafeRow]))
                emptyWorld in
  food_drink_markers w = Some 1%N /\
  total_markers w = Some 0%N /\
  layers w = [] /\
  In (LogRowError "Error creating marker for row:" cafeRow (ExternalError "marker"))
     (console w).
Proof. vm_compute. repeat split. right. left. reflexivity. Qed.

(* ===================================================================== *)
(** ** Strings and the filter test *)

Lemma prefix_occurs (a b : string) :
  prefix a b = true <-> exists rest, b = a ++ rest.
Proof.
  revert b. induction a as [|c a IH]; intros b.
  - destruct b; cbn; split; intros _; eauto.
  - destruct b as [|d b]; cbn.
    + split; [discriminate | intros [rest H]; discriminate].
    + destruct (ascii_dec c d) as [<- | Hne].
      * rewrite IH. split; intros [rest H]; exists rest.
        -- cbn. now f_equal.
        -- cbn in H. now injection H.
      * split; [discriminate|]. intros [rest H]. cbn in H. injection H as -> _.
        now elim Hne.
Qed.

Lemma includes_cons (c : ascii) (s sub : string) :
  includes (String c s) sub = prefix sub (String c s) || includes s sub.
Proof. cbn [includes]. destruct (prefix sub (String c s)); reflexivity. Qed.

Lemma includes_occurs (s sub : string) :
  includes s sub = true <-> occursIn sub s.
Proof.
  unfold occursIn. split.
  - induction s as [|c s IH].
    + cbn [includes]. destruct (prefix sub "") eqn:Hp; [|discriminate].
      intros _. apply prefix_occurs in Hp. destruct Hp as [rest H].
      exists "", rest. exact H.
    + rewrite includes_cons. intros H. apply orb_true_iff in H.
      destruct H as [H | H].
      * apply prefix_occurs in H. destruct H as [rest H].
        exists "", rest. exact H.
      * destruct (IH H) as (before & after & ->).
        exists (String c before), after. reflexivity.
  - intros (before & after & ->).
    induction before as [|c before IH].
    + assert (Hp : prefix sub (sub ++ after) = true)
        by (apply prefix_occurs; eauto).
      cbn [append]. destruct (sub ++ after); cbn [includes]; rewrite Hp; reflexivity.
    + cbn [append]. rewrite includes_cons, IH. apply orb_true_r.
Qed.

Lemma toLowerCase_empty (s : string) : toLowerCase s = "" <-> s = "".
Proof. destruct s; cbn; split; intros H; try discriminate; reflexivity. Qed.

(** The column part of the test, alone. *)
Lemma column_predicates (fvs : list (string * string)) (item : Row) :
  itemPasses "" fvs item = true <->
  Forall (fun f => snd f = "" \/ get item (fst f) = Some (snd f)) fvs.
Proof.
  unfold itemPasses. cbn [truthy String.eqb negb].
  rewrite forallb_forall, Forall_forall.
  split; intros H [c v] Hin; specialize (H (c, v) Hin); cbn [fst snd truthy] in *.
  - destruct (String.eqb_spec v ""); [left; assumption|right].
    cbn in H. unfold strictEq in H. destruct (get item c); [|discriminate].
    apply String.eqb_eq in H. now subst.
  - destruct H as [-> | H]; [reflexivity|].
    destruct (String.eqb_spec v ""); [reflexivity|]. cbn.
    rewrite H. cbn. apply String.eqb_refl.
Qed.

(** The test is the conjunction of the search part and the column part. *)
Lemma itemPasses_split (s : string) (fvs : list (string * string)) (item : Row) :
  itemPasses (toLowerCase s) fvs item = true <->
  (s = "" \/ occursIn (toLowerCase s) (toLowerCase (join " " (values item)))) /\
  itemPasses "" fvs item = true.
Proof.
  unfold itemPasses at 1. cbn [truthy].
  destruct (String.eqb_spec (toLowerCase s) "") as [He | Hne]; cbn [negb].
  - apply (proj1 (toLowerCase_empty s)) in He. subst s. cbn [toLowerCase mapChars].
    unfold itemPasses. cbn [truthy String.eqb negb]. tauto.
  - destruct (includes (toLowerCase (join " " (values item))) (toLowerCase s)) eqn:Hi;
      cbn [negb].
    + apply includes_occurs in Hi.
      unfold itemPasses. cbn [truthy String.eqb negb]. tauto.
    + split; [discriminate|]. intros [[-> | Ho] _].
      * now elim Hne.
      * apply includes_occurs in Ho. congruence.
Qed.

(** C5. A row passes the test under the search string [s], whatever the
    column selections [fvs], iff it passes the column part and the search
    part holds: [s] is empty, or the lowered [s] occurs in the lowered
    concatenation of the row's values joined by single spaces.  The row
    {name: "Blue Bar", category: "Bar"} matches "blue" and "BAR". *)
Theorem search_is_case_insensitive_substring
        (s : string) (fvs : list (string * string)) (item : Row) :
  (itemPasses (toLowerCase s) fvs item = true <->
   (s = "" \/ occursIn (toLowerCase s) (toLowerCase (join " " (values item)))) /\
   itemPasses "" fvs item = true) /\
  (itemPasses (toLowerCase s) [] item = true <->
   s = "" \/ occursIn (toLowerCase s) (toLowerCase (join " " (values item)))) /\
  toLowerCase (join " " (values blueBar)) = "blue bar bar" /\
  filteredData [blueBar] [SearchGroup "blue"] = [blueBar] /\
  filteredData [blueBar] [SearchGroup "BAR"] = [blueBar] /\
  filteredData [blueBar] [SearchGroup "red"] = [].
Proof.
  split; [apply itemPasses_split|].
  split.
  - rewrite itemPasses_split. unfold itemPasses at 1. cbn. tauto.
  - vm_compute. repeat split.
Qed.

(** The column part on the scenario of the spec: with an empty search and
    the dropdown of [category] set to "Bar", the two "Bar" rows are kept,
    in order. *)
Example bar_scenario :
  let fs := filters (exec (createFilterControls (array barRows)) emptyWorld) in
  fs = [SearchGroup ""; SelectGroup "CATEGORY" ["Bar"; "Food"] ""] /\
  filteredData barRows (pickOption 0 "Bar" fs) =
  [ [("latitude", "40.7"); ("longitude", "-74.0"); ("category", "Bar")];
    [("latitude", "40.9"); ("longitude", "-74.2"); ("category", "Bar")] ].
Proof. vm_compute. split; reflexivity. Qed.

(** Once the listeners are attached, a change of the filter controls
    renders the rows that pass the test under the new controls. *)
Lemma filter_event_renders_filtered_rows
      (lib : Library) (change : list FilterGroup -> list FilterGroup)
      (data : list Row) (w : World) :
  listeners w = Some data ->
  fst (onFilterEvent lib change w) = Ok tt /\
  layers (exec (onFilterEvent lib change) w) =
  rendered lib (filteredData data (change (filters w))).
Proof.
  intros Hl. unfold exec, onFilterEvent, bind, getState, modify. rewrite Hl.
  unfold applyFilters, bind, getState. cbn [filters set_filters].
  rewrite createMarkers_run. cbn [fst snd]. split; [reflexivity|].
  unfold passEnd. cbn [layers set_stats add_log]. rewrite fold_layers. reflexivity.
Qed.

Example bar_scenario_rendered :
  let w := exec (createFilterControls (array barRows)) emptyWorld in
  map latlng (layers (exec (onFilterEvent (quietLibrary (fun _ => []))
                                          (pickOption 0 "Bar")) w)) =
  [ (Finite false 407 (-1), Finite true 740 (-1));
    (Finite false 409 (-1), Finite true 742 (-1)) ].
Proof. vm_compute. reflexivity. Qed.

(** A dropdown constrains the column named by the lowered text of its
    label, not the column it was built from. *)
Lemma dropdown_constrains_lowered_label
      (column v : string) (options : list string) (item : Row) :
  itemPasses "" (filterValues [SelectGroup (labelText column) options v]) item = true <->
  v = "" \/ get item (toLowerCase (labelText column)) = Some v.
Proof.
  rewrite column_predicates. cbn [filterValues].
  split.
  - intros H. inversion H as [|? ? H1 _]; subst. exact H1.
  - intros H. constructor; [exact H | constructor].
Qed.

(** C3, the code at a failing input.  For the column
    [categoriesPrimary.name] the dropdown is built from the column itself,
    but its change handler looks the rows up under the lowered label text
    "categoriesprimary.name": selecting "Food" keeps no row, although one
    row has exactly that value in that column. *)
Theorem column_filter_loses_column_name :
  let fs := filters (exec (createFilterControls (array drinksRows)) emptyWorld) in
  fs = [SearchGroup ""; SelectGroup "CATEGORIESPRIMARY.NAME" ["Drinks"; "Food"] ""] /\
  filterValues (pickOption 0 "Food" fs) = [("categoriesprimary.name", "Food")] /\
  filteredData drinksRows (pickOption 0 "Food" fs) = [] /\
  filter (fun item => strictEq (get item "categoriesPrimary.name") "Food") drinksRows =
  [ [("latitude", "40.8"); ("longitude", "-74.1"); ("categoriesPrimary.name", "Food")] ].
Proof. vm_compute. repeat split. Qed.

(* ===================================================================== *)
(** ** Distinct values, sorting and the dropdowns *)

Lemma valueEqb_eq (a b : option string) : valueEqb a b = true <-> a = b.
Proof.
  destruct a as [x|], b as [y|]; cbn; try (split; [discriminate | congruence]).
  - rewrite String.eqb_eq. split; congruence.
  - tauto.
Qed.

Lemma existsb_valueEqb (x : option string) (seen : list (option string)) :
  existsb (valueEqb x) seen = true <-> In x seen.
Proof.
  rewrite existsb_exists. split.
  - intros (y & Hy & He). apply valueEqb_eq in He. now subst.
  - intros H. exists x. split; [exact H | now apply valueEqb_eq].
Qed.

Section SetOf.

Lemma setOf_from_In (xs seen : list (option string)) (x : option string) :
  In x (fold_left addValue xs seen) <-> In x seen \/ In x xs.
Proof.
  revert seen. induction xs as [|y xs IH]; intros seen; cbn [fold_left In].
  - tauto.
  - rewrite IH. unfold addValue.
    destruct (existsb (valueEqb y) seen) eqn:He.
    + apply existsb_valueEqb in He.
      split; [tauto|]. intros [H | [<- | H]]; tauto.
    + rewrite in_app_iff. cbn [In]. tauto.
Qed.

Lemma setOf_from_NoDup (xs seen : list (option string)) :
  NoDup seen -> NoDup (fold_left addValue xs seen).
Proof.
  revert seen. induction xs as [|y xs IH]; intros seen Hnd; cbn [fold_left].
  - exact Hnd.
  - apply IH. unfold addValue.
    destruct (existsb (valueEqb y) seen) eqn:He; [exact Hnd|].
    apply NoDup_app; [exact Hnd | repeat constructor; intros [] |].
    intros a Ha [<- | []].
    apply existsb_valueEqb in Ha. congruence.
Qed.

Lemma setOf_In (xs : list (option string)) (x : option string) :
  In x (setOf xs) <-> In x xs.
Proof.
  unfold setOf. rewrite setOf_from_In. cbn [In]. tauto.
Qed.

Lemma setOf_NoDup (xs : list (option string)) : NoDup (setOf xs).
Proof.
  unfold setOf. apply setOf_from_NoDup. constructor.
Qed.

End SetOf.

Lemma filterBoolean_In (xs : list (option string)) (s : string) :
  In s (filterBoolean xs) <-> s <> "" /\ In (Some s) xs.
Proof.
  induction xs as [|[y|] xs IH]; cbn [filterBoolean In].
  - tauto.
  - destruct (String.eqb_spec y "") as [-> | Hy]; cbn [In]; rewrite IH.
    + split; [tauto|]. intros [Hs [H | H]]; [congruence | tauto].
    + split.
      * intros [<- | H]; [split; [exact Hy | left; reflexivity] | tauto].
      * intros [Hs [H | H]]; [left; congruence | tauto].
  - rewrite IH. split; [tauto|]. intros [Hs [H | H]]; [discriminate | tauto].
Qed.

Lemma filterBoolean_NoDup (xs : list (option string)) :
  NoDup xs -> NoDup (filterBoolean xs).
Proof.
  induction 1 as [|[y|] xs Hnin Hnd IH]; cbn [filterBoolean].
  - constructor.
  - destruct (y =? ""); [exact IH|].
    constructor; [|exact IH]. rewrite filterBoolean_In. tauto.
  - exact IH.
Qed.

Lemma insertSorted_In (x y : string) (xs : list string) :
  In y (insertSorted x xs) <-> y = x \/ In y xs.
Proof.
  induction xs as [|z xs IH]; cbn [insertSorted In].
  - intuition congruence.
  - destruct (String.leb x z); cbn [In]; [|rewrite IH]; intuition congruence.
Qed.

Lemma sort_In (xs : list string) (y : string) : In y (sort xs) <-> In y xs.
Proof.
  induction xs as [|x xs IH]; cbn [sort fold_right In]; [tauto|].
  fold (sort xs). rewrite insertSorted_In, IH. intuition congruence.
Qed.

Lemma insertSorted_NoDup (x : string) (xs : list string) :
  ~ In x xs -> NoDup xs -> NoDup (insertSorted x xs).
Proof.
  induction xs as [|z xs IH]; intros Hnin Hnd; cbn [insertSorted].
  - repeat constructor. intros [].
  - destruct (String.leb x z).
    + constructor; assumption.
    + inversion Hnd as [|? ? Hz Hnd']; subst.
      constructor.
      * rewrite insertSorted_In. intros [-> | H]; [apply Hnin; left; reflexivity | tauto].
      * apply IH; [|exact Hnd']. intros H. apply Hnin. right. exact H.
Qed.

Lemma sort_NoDup (xs : list string) : NoDup xs -> NoDup (sort xs).
Proof.
  induction 1 as [|x xs Hnin Hnd IH]; cbn [sort fold_right]; [constructor|].
  fold (sort xs). apply insertSorted_NoDup; [|exact IH]. now rewrite sort_In.
Qed.

Lemma insertSorted_Sorted (x : string) (xs : list string) :
  Sorted lebP xs -> Sorted lebP (insertSorted x xs).
Proof.
  induction xs as [|z xs IH]; intros Hs; cbn [insertSorted].
  - repeat constructor.
  - destruct (String.leb x z) eqn:Hxz.
    + constructor; [exact Hs | constructor; exact Hxz].
    + apply Sorted_inv in Hs. destruct Hs as [Hs Hhd].
      assert (Hzx : lebP z x).
      { destruct (String.leb_total x z) as [H | H]; [congruence | exact H]. }
      constructor; [apply IH, Hs|].
      destruct xs as [|u xs]; cbn [insertSorted].
      * constructor. exact Hzx.
      * destruct (String.leb x u); constructor; [exact Hzx|].
        apply HdRel_inv in Hhd. exact Hhd.
Qed.

Lemma sort_Sorted (xs : list string) : Sorted lebP (sort xs).
Proof.
  induction xs as [|x xs IH]; cbn [sort fold_right]; [constructor|].
  apply insertSorted_Sorted, IH.
Qed.

Lemma leb_neq_ltb (a b : string) : lebP a b -> a <> b -> ltbP a b.
Proof.
  unfold lebP, ltbP, String.leb, String.ltb. intros Hle Hne.
  destruct (String.compare a b) eqn:Hc; try reflexivity; try discriminate.
  apply String.compare_eq_iff in Hc. contradiction.
Qed.

Lemma Sorted_strict (xs : list string) :
  Sorted lebP xs -> NoDup xs -> Sorted ltbP xs.
Proof.
  induction 1 as [|x xs Hs IH Hhd]; intros Hnd; [constructor|].
  inversion Hnd as [|? ? Hnin Hnd']; subst.
  constructor; [apply IH, Hnd'|].
  destruct Hhd as [|y ys Hxy]; constructor.
  apply leb_neq_ltb; [exact Hxy|]. intros ->. apply Hnin. left. reflexivity.
Qed.

(** The options of a column: its distinct non-empty values, without
    repetition, in strictly ascending order. *)
Lemma uniqueValues_spec (data : list Row) (c : string) :
  NoDup (uniqueValues data c) /\
  Sorted ltbP (uniqueValues data c) /\
  (forall v, In v (uniqueValues data c) <->
             v <> "" /\ exists item, In item data /\ get item c = Some v).
Proof.
  unfold uniqueValues.
  assert (Hnd : NoDup (sort (filterBoolean
                  (setOf (map (fun item => get item c) data)))))
    by apply sort_NoDup, filterBoolean_NoDup, setOf_NoDup.
  split; [exact Hnd|]. split.
  - apply Sorted_strict; [apply sort_Sorted | exact Hnd].
  - intros v. rewrite sort_In, filterBoolean_In, setOf_In, in_map_iff.
    split; intros [Hv (item & H1 & H2)]; (split; [exact Hv|]);
      exists item; tauto.
Qed.

Lemma isFilterable_spec (c : string) :
  isFilterable c = true <->
  c <> "latitude" /\ c <> "longitude" /\ c <> "name" /\ c <> "title".
Proof.
  unfold isFilterable. rewrite !andb_true_iff, !negb_true_iff, !String.eqb_neq.
  tauto.
Qed.

Lemma offeredColumns_spec (data : list Row) (c : string) :
  In c (offeredColumns data) <->
  In c (match data with [] => [] | first :: _ => keys first end) /\
  (c <> "latitude" /\ c <> "longitude" /\ c <> "name" /\ c <> "title") /\
  (0 < List.length (uniqueValues data c) < 50)%nat.
Proof.
  unfold offeredColumns, filterableColumns.
  rewrite !filter_In, andb_true_iff, !Nat.ltb_lt, isFilterable_spec. tauto.
Qed.

Lemma columns_forEach (data : list Row) (cols : list string) (w : World) :
  forEach (addColumnFilter data) cols w =
  (Ok tt,
   set_filters
     (filters w ++
      map (dropdownOf data)
          (filter (fun c => Nat.ltb 0 (List.length (uniqueValues data c)) &&
                            Nat.ltb (List.length (uniqueValues data c)) 50) cols)) w).
Proof.
  revert w. induction cols as [|c cols IH]; intros w; cbn [forEach filter map].
  - rewrite app_nil_r. destruct w; reflexivity.
  - unfold bind, addColumnFilter at 1.
    destruct (Nat.ltb 0 _ && Nat.ltb _ 50)%bool; cbn [modify ret].
    + unfold modify. rewrite IH. cbn [map]. unfold appendFilter.
      destruct w; cbn. rewrite <- app_assoc. reflexivity.
    + unfold ret. apply IH.
Qed.

Lemma createFilterControls_run (data : list Row) (w : World) :
  createFilterControls (array data) w =
  (Ok tt,
   set_listeners data
     (set_filters (SearchGroup "" :: map (dropdownOf data) (offeredColumns data)) w)).
Proof.
  unfold createFilterControls, bind, modify.
  rewrite columns_forEach. destruct w; reflexivity.
Qed.

(** C6, as the code has it.  Take a data set in which no column that
    [createFilterControls] examines is named like a member of
    [Object.prototype], and in which the names and values of those columns
    are free of markup characters.  Then the call ends normally; the
    controls are, after the search box, the dropdowns of the offered
    columns in order, each with its options; a column is offered iff it is
    a property of the first row, is not [latitude], [longitude], [name] or
    [title], and has more than 0 and fewer than 50 distinct non-empty
    values; and the options of an examined column are those distinct
    non-empty values, each once, in strictly ascending order. *)
Theorem dropdowns_are_offered_for_small_columns (data : list Row) (w : World) :
  (forall c, In c (filterableColumns data) ->
             ~ In c prototypeNames /\ markupSafe data c) ->
  fst (createFilterControls (array data) w) = Ok tt /\
  filters (exec (createFilterControls (array data)) w) =
    SearchGroup "" :: map (dropdownOf data) (offeredColumns data) /\
  (forall c,
      In c (offeredColumns data) <->
      In c (match data with [] => [] | first :: _ => keys first end) /\
      (c <> "latitude" /\ c <> "longitude" /\ c <> "name" /\ c <> "title") /\
      (0 < List.length (uniqueValues data c) < 50)%nat) /\
  (forall c,
      In c (filterableColumns data) ->
      NoDup (uniqueValues data c) /\
      Sorted ltbP (uniqueValues data c) /\
      (forall v, In v (uniqueValues data c) <->
                 v <> "" /\ exists item, In item data /\ get item c = Some v)).
Proof.
  intros _. unfold exec. rewrite createFilterControls_run.
  split; [reflexivity|]. split; [reflexivity|].
  split; [apply offeredColumns_spec | intros c _; apply uniqueValues_spec].
Qed.

Lemma barRows_are_plain (c : string) :
  In c (filterableColumns barRows) -> ~ In c prototypeNames /\ markupSafe barRows c.
Proof.
  intros [<- | []]. split.
  - cbn. intros H.
    repeat match type of H with
      | _ \/ _ => destruct H as [H | H]; [discriminate H|]
      end.
    exact H.
  - split; [reflexivity|].
    intros item v [<- | [<- | [<- | []]]] Hv; cbn in Hv; injection Hv as <-; reflexivity.
Qed.

Lemma dropdowns_are_offered_for_small_columns_witness :
  filters (exec (createFilterControls (array barRows)) emptyWorld) =
  [SearchGroup ""; SelectGroup "CATEGORY" ["Bar"; "Food"] ""].
Proof.
  destruct (dropdowns_are_offered_for_small_columns barRows emptyWorld barRows_are_plain)
    as (_ & Hf & _).
  refine (eq_trans Hf _). vm_compute. reflexivity.
Defined.

(** C6, counterexample to the claim as worded.  In [raggedRows] the column
    [category] is no coordinate or name field and has exactly one distinct
    non-empty value, but the first row lacks it and no dropdown is built. *)
Lemma column_missing_from_first_row_is_not_offered :
  isFilterable "category" = true /\
  uniqueValues raggedRows "category" = ["Bar"] /\
  offeredColumns raggedRows = [] /\
  filters (exec (createFilterControls (array raggedRows)) emptyWorld) = [SearchGroup ""].
Proof. vm_compute. repeat split. Qed.

(* ===================================================================== *)
(** ** The loader and start-up *)

Lemma filterM_keepRow (rows : list Row) (w : World) :
  filterM keepRow rows w = (Ok (filter hasCoords rows), add_logs (missingLogs rows) w).
Proof.
  revert w. induction rows as [|row rows IH]; intros w; [reflexivity|].
  cbn [filterM]. unfold bind at 1. unfold keepRow at 1, missingLogs.
  cbn [filter]. unfold bind at 2.
  destruct (hasCoords row) eqn:Hc; cbn [negb console_log modify ret bind].
  - unfold bind. rewrite IH. reflexivity.
  - unfold bind, console_log, modify. rewrite IH. reflexivity.
Qed.

Lemma add_logs_controls (entries : list LogEntry) (w : World) :
  layers (add_logs entries w) = layers w /\
  sameControls w (add_logs entries w).
Proof.
  revert w. induction entries as [|x entries IH]; intros w.
  - repeat split.
  - cbn [add_logs fold_left]. destruct (IH (add_log x w)) as (Hl & Hc).
    unfold add_logs in *. rewrite Hl. split; [reflexivity|].
    unfold sameControls in *.
    repeat match goal with H : _ /\ _ |- _ => destruct H end.
    repeat split; etransitivity; try eassumption; reflexivity.
Qed.




(** The page the loader has reached when it calls [createMarkers]. *)
Lemma fetchChain_success (lib : Library) (status : N) (text : string) (w : World) :
  fetchChain lib (Response true status text) w =
  let rows := Papa_parse lib text in
  let w1 :=
    add_log (LogNumber "CSV parsed, number of rows:" (N.of_nat (List.length rows)))
      (add_log (LogText "CSV text loaded, first 500 chars:" (substring 0 500 text))
         (add_log (LogNumber "CSV fetch response status:" status) w)) in
  match rows with
  | [] =>
      (Ok tt,
       add_log (LogError "Error loading CSV:"
                         (TypeError "Cannot convert undefined or null to object")) w1)
  | first :: _ =>
      createMarkers lib (array (filter hasCoords rows))
        (add_log (LogNumber "Rows with valid coordinates:"
                            (N.of_nat (List.length (filter hasCoords rows))))
           (add_logs (missingLogs rows)
              (add_log (LogRows "First 3 rows:" (firstn 3 rows))
                 (add_log (LogKeys "CSV headers:" (keys first)) w1))))
  end.
Proof.
  cbv zeta. unfold fetchChain, try_catch, bind, console_log, modify, ret, throw.
  cbn [negb].
  destruct (Papa_parse lib text) as [|first rest] eqn:Hp; [reflexivity|].
  rewrite filterM_keepRow, createMarkers_run. reflexivity.
Qed.

Lemma fetchChain_failure (lib : Library) (outcome : FetchOutcome) (e : Error) (w : World) :
  fetchError outcome = Some e ->
  fetchChain lib outcome w =
  (Ok tt,
   add_log (LogError "Error loading CSV:" e)
     match outcome with
     | NetworkFailure _ => w
     | Response _ status _ => add_log (LogNumber "CSV fetch response status:" status) w
     end).
Proof.
  destruct outcome as [e' | [|] status text]; cbn [fetchError]; intros H;
    try discriminate; injection H as <-; reflexivity.
Qed.

Lemma fetchChain_ok (lib : Library) (outcome : FetchOutcome) (w : World) :
  fst (fetchChain lib outcome w) = Ok tt /\
  filters (exec (fetchChain lib outcome) w) = filters w /\
  listeners (exec (fetchChain lib outcome) w) = listeners w /\
  requests (exec (fetchChain lib outcome) w) = requests w.
Proof.
  destruct (fetchError outcome) as [e|] eqn:He.
  - unfold exec. rewrite (fetchChain_failure lib outcome e w He).
    destruct outcome; repeat split.
  - destruct outcome as [e' | [|] status text]; try discriminate.
    unfold exec. rewrite fetchChain_success. cbv zeta.
    destruct (Papa_parse lib text) as [|first rest]; [repeat split|].
    match goal with
    | |- context [createMarkers lib (array ?rs) ?w0] =>
        pose proof (createMarkers_controls lib rs w0) as Hc;
        pose proof (add_logs_controls (missingLogs (first :: rest))
                      (add_log (LogRows "First 3 rows:" (firstn 3 (first :: rest)))
                         (add_log (LogKeys "CSV headers:" (keys first))
                            (add_log (LogNumber "CSV parsed, number of rows:"
                                        (N.of_nat (List.length (first :: rest))))
                               (add_log (LogText "CSV text loaded, first 500 chars:"
                                           (substring 0 500 text))
                                  (add_log (LogNumber "CSV fetch response status:" status)
                                           w))))))
          as (_ & _ & _ & _ & Hf & Hl & Hr)
    end.
    unfold exec in Hc. destruct Hc as (Hf' & Hl' & Hr').
    rewrite createMarkers_run in *. cbn [fst snd] in *.
    rewrite Hf', Hl', Hr'. cbn [filters listeners requests add_log].
    rewrite Hf, Hl, Hr. repeat split.
Qed.

Lemma onLoaded_run (lib : Library) (w : World) :
  onLoaded lib w =
  (Throw (TypeError "Cannot read properties of undefined (reading '0')"),
   set_filters [SearchGroup ""] (exec loadCSV w)).
Proof. destruct w; reflexivity. Qed.

Lemma startup_run (lib : Library) (outcome : FetchOutcome) (w : World) :
  startup lib outcome w =
  (Ok (Throw (TypeError "Cannot read properties of undefined (reading '0')")),
   exec (fetchChain lib outcome) (set_filters [SearchGroup ""] (exec loadCSV w))).
Proof.
  unfold startup, bind, attempt. rewrite onLoaded_run.
  destruct (fetchChain_ok lib outcome (set_filters [SearchGroup ""] (exec loadCSV w)))
    as (Hok & _).
  unfold exec at 2.
  destruct (fetchChain lib outcome (set_filters [SearchGroup ""] (exec loadCSV w)))
    as [r w']. cbn [fst snd] in *. subst r. reflexivity.
Qed.

(** C1, the code on any load.  [loadCSV] ends without a value: its caller
    gets [undefined], not the rows.  The handler therefore gives
    [undefined] to [createFilterControls], which throws a TypeError once
    the search box is in place; after start-up the page has the search box
    as its only filter control and no listener is attached, whatever the
    request returned. *)
Theorem loadCSV_hands_no_rows_to_its_caller
        (lib : Library) (outcome : FetchOutcome) (w : World) :
  fst (loadCSV w) = Ok undefined /\
  onLoaded lib w =
    (Throw (TypeError "Cannot read properties of undefined (reading '0')"),
     set_filters [SearchGroup ""] (exec loadCSV w)) /\
  fst (startup lib outcome w) =
    Ok (Throw (TypeError "Cannot read properties of undefined (reading '0')")) /\
  filters (exec (startup lib outcome) w) = [SearchGroup ""] /\
  listeners (exec (startup lib outcome) w) = listeners w.
Proof.
  split; [reflexivity|]. split; [apply onLoaded_run|].
  unfold exec at 1 2. rewrite startup_run. cbn [fst snd].
  destruct (fetchChain_ok lib outcome (set_filters [SearchGroup ""] (exec loadCSV w)))
    as (_ & Hf & Hl & _).
  rewrite Hf, Hl. repeat split.
Qed.

(** The same on a load that succeeds with the two rows of the scenario:
    the chain renders one marker, and the filter controls never get the
    rows. *)
Example startup_on_scenario :
  let w := exec (startup (quietLibrary (fun _ => scenarioRows))
                         (Response true 200 "latitude,longitude,category")) emptyWorld in
  layers w = [markerOf cafeRow] /\
  filters w = [SearchGroup ""] /\
  listeners w = None.
Proof. vm_compute. repeat split. Qed.




(** C7, as the code has it.  When the request does not succeed, the error
    is caught and logged by the loader's own chain, which ends normally:
    the caller of [loadCSV] gets [undefined] and no exception.  The data
    file is requested once.  The chain renders nothing: the marker
    collection and the stat displays stay as they were, through the chain
    and through the whole start-up. *)
Theorem fetch_failure_is_logged_not_propagated
        (lib : Library) (outcome : FetchOutcome) (e : Error) (w : World) :
  fetchError outcome = Some e ->
  fst (loadCSV w) = Ok undefined /\
  fst (fetchChain lib outcome w) = Ok tt /\
  In (LogError "Error loading CSV:" e) (console (exec (fetchChain lib outcome) w)) /\
  layers (exec (fetchChain lib outcome) w) = layers w /\
  sameControls w (exec (fetchChain lib outcome) w) /\
  requests (exec (startup lib outcome) w) = (requests w ++ ["data.csv"])%list /\
  layers (exec (startup lib outcome) w) = layers w /\
  total_markers (exec (startup lib outcome) w) = total_markers w /\
  food_drink_markers (exec (startup lib outcome) w) = food_drink_markers w /\
  visible_markers (exec (startup lib outcome) w) = visible_markers w.
Proof.
  intros He. unfold exec. rewrite startup_run. unfold exec.
  rewrite !(fetchChain_failure lib outcome e _ He). cbn [fst snd].
  split; [reflexivity|]. split; [reflexivity|]. split.
  - cbn [console add_log]. apply in_or_app. right. left. reflexivity.
  - destruct outcome; destruct w; cbn; unfold sameControls; cbn; repeat split.
Qed.

Lemma fetch_failure_is_logged_not_propagated_witness :
  fetchError (Response false 404 "") = Some (HttpError 404) /\
  layers (exec (startup (quietLibrary (fun _ => scenarioRows)) (Response false 404 ""))
               emptyWorld) = [].
Proof.
  split; [reflexivity|].
  destruct (fetch_failure_is_logged_not_propagated
              (quietLibrary (fun _ => scenarioRows)) (Response false 404 "")
              (HttpError 404) emptyWorld eq_refl)
    as (_ & _ & _ & _ & _ & _ & Hl & _).
  exact Hl.
Defined.

(** C7, counterexample to the claim as worded.  On a 404 the caller of
    [loadCSV] gets [undefined] and no error, the loader's chain ends
    normally, and the handler then fails on its own with a TypeError after
    it has put the search box on the page. *)
Lemma fetch_error_does_not_reach_caller :
  fst (loadCSV emptyWorld) = Ok undefined /\
  fst (fetchChain (quietLibrary (fun _ => scenarioRows)) (Response false 404 "")
                  emptyWorld) = Ok tt /\
  startup (quietLibrary (fun _ => scenarioRows)) (Response false 404 "") emptyWorld =
  (Ok (Throw (TypeError "Cannot read properties of undefined (reading '0')")),
   mkWorld [] None None None [SearchGroup ""] None ["data.csv"]
           [LogText "Starting CSV load..." "";
            LogNumber "CSV fetch response status:" 404;
            LogError "Error loading CSV:" (HttpError 404)]).
Proof. vm_compute. repeat split. Qed.

(** ** The two counters when no library call throws *)

Lemma neverThrows_outcome (lib : Library) (shown : list Marker) (row : Row) (e : Error) :
  neverThrows lib -> rowOutcome lib shown row <> Failed e.
Proof.
  intros (Hi & Hm & Hb & Ha). unfold rowOutcome.
  destruct (isNaN _ || isNaN _)%bool; [discriminate|].
  rewrite Hi, Hm, Hb, Ha. discriminate.
Qed.

Lemma fold_food_le_total (lib : Library) (rows : list Row) (p : Pass) :
  neverThrows lib ->
  (foodDrinkCount p <= totalMarkers p)%N ->
  (foodDrinkCount (fold_left (passStep lib) rows p) <=
   totalMarkers (fold_left (passStep lib) rows p))%N.
Proof.
  intros Hq. revert p. induction rows as [|row rows IH]; intros p Hle; cbn [fold_left].
  - exact Hle.
  - apply IH. rewrite passStep_food, passStep_total.
    destruct (rowOutcome lib (layers (page p)) row) eqn:Ho.
    + exact Hle.
    + destruct (isFoodDrink row); lia.
    + exfalso. eapply neverThrows_outcome; eassumption.
Qed.

(** With a mapping library that never throws, the food/drink count written
    by a pass is at most the total written. *)
Lemma food_le_total_without_failures (lib : Library) (rows : list Row) (w : World) :
  neverThrows lib ->
  exists food total,
    food_drink_markers (exec (createMarkers lib (array rows)) w) = Some food /\
    total_markers (exec (createMarkers lib (array rows)) w) = Some total /\
    (food <= total)%N.
Proof.
  intros Hq. unfold exec. rewrite createMarkers_run. cbn [snd]. unfold passEnd.
  cbn [food_drink_markers total_markers set_stats].
  eexists _, _. split; [reflexivity|]. split; [reflexivity|].
  apply fold_food_le_total; [exact Hq | cbn; lia].
Qed.

(* ===================================================================== *)
(** * Further properties of the script *)

(** ** Strings *)

Lemma append_assoc (a b c : string) : (a ++ b) ++ c = a ++ (b ++ c).
Proof. induction a as [|x a IH]; cbn; [reflexivity | now rewrite IH]. Qed.

Lemma append_empty_r (a : string) : a ++ "" = a.
Proof. induction a as [|x a IH]; cbn; [reflexivity | now rewrite IH]. Qed.

Lemma mapChars_append (f : ascii -> ascii) (a b : string) :
  mapChars f (a ++ b) = mapChars f a ++ mapChars f b.
Proof. induction a as [|x a IH]; cbn; [reflexivity | now rewrite IH]. Qed.

Lemma occursIn_refl (s : string) : occursIn s s.
Proof. exists "", "". cbn. now rewrite append_empty_r. Qed.

Lemma occursIn_trans (a b c : string) : occursIn a b -> occursIn b c -> occursIn a c.
Proof.
  intros (p1 & q1 & ->) (p2 & q2 & ->).
  exists (p2 ++ p1), (q1 ++ q2). now rewrite !append_assoc.
Qed.

Lemma occursIn_empty (s : string) : occursIn s "" -> s = "".
Proof.
  intros (p & q & H). destruct p; [|discriminate]. destruct s; [reflexivity|discriminate].
Qed.

Lemma occursIn_lower (a b : string) :
  occursIn a b -> occursIn (toLowerCase a) (toLowerCase b).
Proof.
  intros (p & q & ->). exists (toLowerCase p), (toLowerCase q).
  unfold toLowerCase. now rewrite !mapChars_append.
Qed.

Lemma occursIn_join (sep v : string) (vs : list string) :
  In v vs -> occursIn v (join sep vs).
Proof.
  unfold join. induction vs as [|x [|y vs] IH]; intros Hin.
  - destruct Hin.
  - destruct Hin as [<- | []]. apply occursIn_refl.
  - change (String.concat sep (x :: y :: vs))
      with (x ++ sep ++ String.concat sep (y :: vs)).
    destruct Hin as [<- | Hin].
    + exists "", (sep ++ String.concat sep (y :: vs)). reflexivity.
    + destruct (IH Hin) as (p & q & Hpq). rewrite Hpq.
      exists (x ++ sep ++ p), q. now rewrite !append_assoc.
Qed.

(** ** The filter test and the controls *)




(** X2. A search term that occurs, case-insensitively, in another one is
    the weaker of the two: every row that passes under the longer term
    passes under the shorter one, so typing more only narrows the result. *)
Theorem longer_search_term_only_narrows
        (s s' : string) (fvs : list (string * string)) (data : list Row) :
  occursIn (toLowerCase s) (toLowerCase s') ->
  (forall item, itemPasses (toLowerCase s') fvs item = true ->
                itemPasses (toLowerCase s) fvs item = true) /\
  incl (filter (itemPasses (toLowerCase s') fvs) data)
       (filter (itemPasses (toLowerCase s) fvs) data).
Proof.
  intros Hocc.
  assert (Hone : forall item, itemPasses (toLowerCase s') fvs item = true ->
                              itemPasses (toLowerCase s) fvs item = true).
  { intros item H. apply itemPasses_split in H. apply itemPasses_split.
    destruct H as [[-> | H] Hc]; (split; [|exact Hc]).
    - left. apply occursIn_empty in Hocc.
      apply (proj1 (toLowerCase_empty s)) in Hocc. exact Hocc.
    - right. eapply occursIn_trans; eassumption. }
  split; [exact Hone|].
  intros item Hin. apply filter_In in Hin. apply filter_In.
  destruct Hin as [Hin Hp]. split; [exact Hin | apply Hone, Hp].
Qed.

Lemma longer_search_term_only_narrows_witness :
  occursIn (toLowerCase "Bar") (toLowerCase "blue BAR") /\
  itemPasses (toLowerCase "Bar") [] blueBar = true.
Proof.
  assert (Hocc : occursIn (toLowerCase "Bar") (toLowerCase "blue BAR"))
    by (exists "blue ", ""; reflexivity).
  split; [exact Hocc|].
  destruct (longer_search_term_only_narrows "Bar" "blue BAR" [] [blueBar] Hocc)
    as [Hone _].
  apply Hone. vm_compute. reflexivity.
Defined.

(** X3. A term that occurs, case-insensitively, in the value of any one
    field of a row makes the row pass the search. *)
Theorem search_matches_term_in_any_field (s k v : string) (item : Row) :
  In (k, v) item ->
  occursIn (toLowerCase s) (toLowerCase v) ->
  itemPasses (toLowerCase s) [] item = true.
Proof.
  intros Hin Hocc. apply itemPasses_split. split; [|reflexivity].
  right. eapply occursIn_trans; [exact Hocc|].
  apply occursIn_lower, occursIn_join. unfold values.
  apply in_map_iff. exists (k, v). split; [reflexivity | exact Hin].
Qed.

Lemma search_matches_term_in_any_field_witness :
  itemPasses (toLowerCase "UE b") [] blueBar = true.
Proof.
  apply (search_matches_term_in_any_field "UE b" "name" "Blue Bar" blueBar).
  - left. reflexivity.
  - exists "bl", "ar". reflexivity.
Defined.

Lemma plainChar_round_trip (c : ascii) :
  Ascii.eqb (lowerChar (upperChar (if Ascii.eqb c "_" then " "%char else c))) c =
  plainChar c.
Proof. destruct c as [[] [] [] [] [] [] [] []]; reflexivity. Qed.

Lemma labelText_round_trip (column : string) :
  toLowerCase (labelText column) = column <-> allChars plainChar column = true.
Proof.
  unfold labelText, toLowerCase, toUpperCase, replaceUnderscores.
  induction column as [|c s IH]; cbn [mapChars allChars]; [tauto|].
  rewrite andb_true_iff, <- IH, <- plainChar_round_trip, Ascii.eqb_eq.
  split.
  - intros H. injection H as H1 H2. split; assumption.
  - intros [H1 H2]. rewrite H1, H2. reflexivity.
Qed.

(** X4. For a column name made of ASCII characters, the name that
    [applyFilters] reads back from the label of a dropdown is the name the
    dropdown was built from iff the name has no upper-case letter and no
    underscore. *)
Theorem label_gives_back_plain_column_names (column : string) :
  allChars asciiChar column = true ->
  (toLowerCase (labelText column) = column <-> allChars plainChar column = true).
Proof. intros _. apply labelText_round_trip. Qed.

Lemma label_gives_back_plain_column_names_witness :
  toLowerCase (labelText "category") = "category" /\
  allChars plainChar "sub_Category" = false.
Proof.
  split.
  - apply (label_gives_back_plain_column_names "category"); reflexivity.
  - destruct (allChars plainChar "sub_Category") eqn:E; [|reflexivity].
    apply (label_gives_back_plain_column_names "sub_Category") in E;
      [discriminate E | reflexivity].
Defined.

(** X5. For a column whose name is made of ASCII characters, none of them
    an upper-case letter or an underscore, the dropdown imposes exactly the
    constraint that the row has the selected value in that column, and
    none when the selection is empty. *)
Theorem dropdown_of_plain_column_is_exact
        (column v : string) (options : list string) (item : Row) :
  allChars asciiChar column = true ->
  allChars plainChar column = true ->
  (itemPasses "" (filterValues [SelectGroup (labelText column) options v]) item = true <->
   v = "" \/ get item column = Some v).
Proof.
  intros _ Hplain. apply labelText_round_trip in Hplain.
  rewrite dropdown_constrains_lowered_label, Hplain. tauto.
Qed.

Lemma dropdown_of_plain_column_is_exact_witness :
  itemPasses "" (filterValues [SelectGroup (labelText "category") ["Bar"] "Bar"]) blueBar
  = true.
Proof.
  apply (dropdown_of_plain_column_is_exact "category" "Bar" ["Bar"] blueBar).
  - reflexivity.
  - reflexivity.
  - right. reflexivity.
Defined.

(** X6. [applyFilters] renders from scratch: it ends normally, the marker
    collection becomes the markers built from the rows of the data that
    pass the test under the current controls, every marker shown belongs to
    such a row, and the controls, the listeners and the list of requests
    are left as they were. *)
Theorem applyFilters_renders_passing_rows (lib : Library) (data : list Row) (w : World) :
  let w' := exec (applyFilters lib data) w in
  fst (applyFilters lib data w) = Ok tt /\
  layers w' = rendered lib (filteredData data (filters w)) /\
  (forall m, In m (layers w') ->
     exists row, In row data /\
       itemPasses (toLowerCase (searchValue (filters w))) (filterValues (filters w)) row
       = true /\
       m = markerOf row) /\
  filters w' = filters w /\ listeners w' = listeners w /\ requests w' = requests w.
Proof.
  cbv zeta. unfold applyFilters, exec, bind, getState.
  change (snd (createMarkers lib (array (filteredData data (filters w))) w))
    with (exec (createMarkers lib (array (filteredData data (filters w)))) w).
  rewrite createMarkers_layers.
  split; [rewrite createMarkers_run; reflexivity|].
  split; [reflexivity|]. split.
  - intros m Hm. unfold rendered in Hm. apply showRow_from in Hm.
    destruct Hm as [[] | (row & Hin & ->)].
    unfold filteredData in Hin. apply filter_In in Hin. destruct Hin as [Hin Hp].
    exists row. repeat split; assumption.
  - apply createMarkers_controls.
Qed.

(** ** The counters and the marker collection of a pass *)

Lemma rowOutcome_skipped (lib : Library) (shown : list Marker) (row : Row) :
  rowOutcome lib shown row = Skipped <-> coordsOk row = false.
Proof.
  unfold rowOutcome, coordsOk.
  destruct (isNaN _ || isNaN _)%bool; cbn [negb]; [tauto|].
  split; [|discriminate].
  repeat match goal with
    | |- context [match ?o with Some _ => _ | None => _ end] => destruct o
    end; discriminate.
Qed.

Lemma coordsOk_not_NaN (row : Row) :
  coordsOk row = true <->
  parseFloat (get row "latitude") <> NaN /\ parseFloat (get row "longitude") <> NaN.
Proof.
  unfold coordsOk.
  destruct (parseFloat (get row "latitude")), (parseFloat (get row "longitude"));
    cbn; split; try discriminate; try tauto; intros _; split; discriminate.
Qed.

Lemma fold_food (lib : Library) (rows : list Row) (p : Pass) :
  foodDrinkCount (fold_left (passStep lib) rows p) =
  (foodDrinkCount p + N.of_nat (List.length (foodRows rows)))%N.
Proof.
  revert p. induction rows as [|row rows IH]; intros p; cbn [fold_left foodRows filter].
  - cbn. lia.
  - rewrite IH, passStep_food. fold (foodRows rows).
    destruct (rowOutcome lib (layers (page p)) row) eqn:Ho.
    + apply rowOutcome_skipped in Ho. rewrite Ho. cbn [andb]. reflexivity.
    + assert (Hok : coordsOk row = true).
      { destruct (coordsOk row) eqn:E; [reflexivity|].
        apply (rowOutcome_skipped lib (layers (page p))) in E. congruence. }
      rewrite Hok. cbn [andb]. destruct (isFoodDrink row); cbn [List.length]; lia.
    + assert (Hok : coordsOk row = true).
      { destruct (coordsOk row) eqn:E; [reflexivity|].
        apply (rowOutcome_skipped lib (layers (page p))) in E. congruence. }
      rewrite Hok. cbn [andb]. destruct (isFoodDrink row); cbn [List.length]; lia.
Qed.

Lemma createMarkers_food (lib : Library) (rows : list Row) (w : World) :
  food_drink_markers (exec (createMarkers lib (array rows)) w) =
  Some (N.of_nat (List.length (foodRows rows))).
Proof.
  unfold exec. rewrite createMarkers_run. cbn [snd]. unfold passEnd.
  cbn [food_drink_markers set_stats]. rewrite fold_food. reflexivity.
Qed.

Lemma createMarkers_visible (lib : Library) (rows : list Row) (w : World) :
  visible_markers (exec (createMarkers lib (array rows)) w) =
  Some (N.of_nat (List.length (rendered lib rows))).
Proof.
  unfold exec. rewrite createMarkers_run. cbn [snd]. unfold passEnd.
  cbn [visible_markers set_stats].
  rewrite fold_total by reflexivity. rewrite fold_layers. reflexivity.
Qed.

(** X7. Whatever the mapping library does, the food/drink count a pass
    writes is the number of input rows that pass the coordinate check and
    whose category holds one of the four keywords: a row is counted whether
    or not its marker could be built. *)
Theorem food_count_is_number_of_food_rows (lib : Library) (rows : list Row) (w : World) :
  food_drink_markers (exec (createMarkers lib (array rows)) w) =
  Some (N.of_nat (List.length
                    (filter (fun row => coordsOk row && isFoodDrink row) rows))).
Proof. apply createMarkers_food. Qed.

(** X8. The last render wins: a pass over [later] that follows a pass over
    [earlier] leaves the same markers and the same three stat displays as
    the pass over [later] alone; in particular a pass repeated on the same
    rows changes neither. *)
Theorem last_render_wins (lib : Library) (earlier later : list Row) (w : World) :
  let once := exec (createMarkers lib (array later)) w in
  let twice := exec (createMarkers lib (array later))
                    (exec (createMarkers lib (array earlier)) w) in
  layers twice = layers once /\
  total_markers twice = total_markers once /\
  food_drink_markers twice = food_drink_markers once /\
  visible_markers twice = visible_markers once.
Proof.
  cbv zeta.
  rewrite !createMarkers_layers, !createMarkers_total, !createMarkers_food,
    !createMarkers_visible.
  repeat split.
Qed.

Lemma showRow_length (lib : Library) (rows : list Row) (shown : list Marker) :
  (List.length (fold_left (showRow lib) rows shown) <=
   List.length shown + List.length (filter coordsOk rows))%nat.
Proof.
  revert shown. induction rows as [|row rows IH]; intros shown; cbn [fold_left filter].
  - lia.
  - specialize (IH (showRow lib shown row)). unfold showRow in *.
    destruct (rowOutcome lib shown row) eqn:Ho.
    + destruct (coordsOk row); cbn [List.length]; lia.
    + assert (Hok : coordsOk row = true).
      { destruct (coordsOk row) eqn:E; [reflexivity|].
        apply (rowOutcome_skipped lib shown) in E. congruence. }
      rewrite Hok. rewrite length_app in IH. cbn [List.length] in *. lia.
    + destruct (coordsOk row); cbn [List.length]; lia.
Qed.

Lemma filter_length_le (A : Type) (f : A -> bool) (xs : list A) :
  (List.length (filter f xs) <= List.length xs)%nat.
Proof.
  induction xs as [|x xs IH]; cbn [filter List.length]; [lia|].
  destruct (f x); cbn [List.length]; lia.
Qed.

Lemma filter_and_length_le (A : Type) (f g : A -> bool) (xs : list A) :
  (List.length (filter (fun x => f x && g x) xs) <= List.length (filter f xs))%nat.
Proof.
  induction xs as [|x xs IH]; cbn [filter List.length]; [lia|].
  destruct (f x), (g x); cbn [andb List.length]; lia.
Qed.

(** X9. Both counts a pass writes are bounded by the number of input rows
    that pass the coordinate check, hence by the number of input rows. *)
Theorem counts_are_bounded_by_checked_rows (lib : Library) (rows : list Row) (w : World) :
  exists food total : N,
    food_drink_markers (exec (createMarkers lib (array rows)) w) = Some food /\
    total_markers (exec (createMarkers lib (array rows)) w) = Some total /\
    (food <= N.of_nat (List.length (filter coordsOk rows)))%N /\
    (total <= N.of_nat (List.length (filter coordsOk rows)))%N /\
    (List.length (filter coordsOk rows) <= List.length rows)%nat.
Proof.
  rewrite createMarkers_food, createMarkers_total.
  eexists _, _. split; [reflexivity|]. split; [reflexivity|].
  pose proof (filter_and_length_le Row coordsOk isFoodDrink rows) as Hf.
  pose proof (showRow_length lib rows []) as Ht.
  pose proof (filter_length_le Row coordsOk rows) as Hn.
  unfold rendered, foodRows. cbn [List.length] in Ht. repeat split; lia.
Qed.

Lemma showRow_quiet (lib : Library) (rows : list Row) (shown : list Marker) :
  neverThrows lib ->
  fold_left (showRow lib) rows shown = (shown ++ map markerOf (filter coordsOk rows))%list.
Proof.
  intros Hq. revert shown.
  induction rows as [|row rows IH]; intros shown; cbn [fold_left filter map].
  - now rewrite app_nil_r.
  - rewrite IH. unfold showRow. destruct (coordsOk row) eqn:Hok.
    + apply coordsOk_not_NaN in Hok. destruct Hok as [Hlat Hlng].
      rewrite rowOutcome_rendered by assumption.
      cbn [map]. rewrite <- app_assoc. reflexivity.
    + apply (rowOutcome_skipped lib shown) in Hok. rewrite Hok. reflexivity.
Qed.

Lemma createMarkers_quiet (lib : Library) (rows : list Row) (w : World) :
  neverThrows lib ->
  layers (exec (createMarkers lib (array rows)) w) = map markerOf (filter coordsOk rows) /\
  total_markers (exec (createMarkers lib (array rows)) w) =
    Some (N.of_nat (List.length (filter coordsOk rows))).
Proof.
  intros Hq. rewrite createMarkers_layers, createMarkers_total.
  unfold rendered. rewrite showRow_quiet by exact Hq. cbn [app].
  rewrite length_map. split; reflexivity.
Qed.

Lemma quietLibrary_neverThrows (parse : string -> list Row) :
  neverThrows (quietLibrary parse).
Proof. repeat split. Qed.

(** X10. When no call of the mapping library throws, a pass shows exactly
    the markers of the rows that pass the coordinate check, in the order of
    the input, and the total it writes is their number. *)
Theorem quiet_pass_shows_all_checked_rows (lib : Library) (rows : list Row) (w : World) :
  neverThrows lib ->
  layers (exec (createMarkers lib (array rows)) w) = map markerOf (filter coordsOk rows) /\
  total_markers (exec (createMarkers lib (array rows)) w) =
    Some (N.of_nat (List.length (filter coordsOk rows))).
Proof. apply createMarkers_quiet. Qed.

Lemma quiet_pass_shows_all_checked_rows_witness :
  layers (exec (createMarkers (quietLibrary (fun _ => [])) (array scenarioRows)) emptyWorld)
  = [markerOf cafeRow].
Proof.
  destruct (quiet_pass_shows_all_checked_rows
              (quietLibrary (fun _ => [])) scenarioRows emptyWorld
              (quietLibrary_neverThrows (fun _ => []))) as [Hl _].
  refine (eq_trans Hl _). vm_compute. reflexivity.
Defined.

(** X11. When no call of the mapping library throws, the food/drink count
    a pass writes is at most the total it writes. *)
Theorem quiet_pass_food_le_total (lib : Library) (rows : list Row) (w : World) :
  neverThrows lib ->
  exists food total : N,
    food_drink_markers (exec (createMarkers lib (array rows)) w) = Some food /\
    total_markers (exec (createMarkers lib (array rows)) w) = Some total /\
    (food <= total)%N.
Proof.
  intros Hq. rewrite createMarkers_food.
  destruct (createMarkers_quiet lib rows w Hq) as [_ ->].
  eexists _, _. split; [reflexivity|]. split; [reflexivity|].
  pose proof (filter_and_length_le Row coordsOk isFoodDrink rows). unfold foodRows. lia.
Qed.

Lemma quiet_pass_food_le_total_witness :
  exists food total : N,
    food_drink_markers (exec (createMarkers (quietLibrary (fun _ => []))
                                            (array scenarioRows)) emptyWorld) = Some food /\
    total_markers (exec (createMarkers (quietLibrary (fun _ => []))
                                       (array scenarioRows)) emptyWorld) = Some total /\
    (food <= total)%N.
Proof.
  exact (quiet_pass_food_le_total (quietLibrary (fun _ => [])) scenarioRows emptyWorld
           (quietLibrary_neverThrows (fun _ => []))).
Defined.

(** ** The loader's test against the renderer's *)

Lemma falsy_is_NaN (v : option string) : truthy v = false -> parseFloat v = NaN.
Proof.
  destruct v as [[|c s]|]; cbn [truthy String.eqb negb]; intros H;
    try discriminate; vm_compute; reflexivity.
Qed.

Lemma hasCoords_of_coordsOk (row : Row) : coordsOk row = true -> hasCoords row = true.
Proof.
  intros H. apply coordsOk_not_NaN in H. destruct H as [Hlat Hlng].
  unfold hasCoords.
  destruct (truthy (get row "latitude")) eqn:E1;
    [|apply falsy_is_NaN in E1; contradiction].
  destruct (truthy (get row "longitude")) eqn:E2;
    [|apply falsy_is_NaN in E2; contradiction].
  reflexivity.
Qed.

Lemma showRow_hasCoords (lib : Library) (rows : list Row) (shown : list Marker) :
  fold_left (showRow lib) (filter hasCoords rows) shown =
  fold_left (showRow lib) rows shown.
Proof.
  revert shown. induction rows as [|row rows IH]; intros shown; cbn [filter fold_left].
  - reflexivity.
  - destruct (hasCoords row) eqn:Hc; cbn [fold_left]; [apply IH|].
    rewrite IH. f_equal. unfold showRow.
    assert (Hs : rowOutcome lib shown row = Skipped).
    { apply rowOutcome_skipped. destruct (coordsOk row) eqn:E; [|reflexivity].
      apply hasCoords_of_coordsOk in E. congruence. }
    rewrite Hs. reflexivity.
Qed.

Lemma foodRows_hasCoords (rows : list Row) :
  foodRows (filter hasCoords rows) = foodRows rows.
Proof.
  unfold foodRows. induction rows as [|row rows IH]; cbn [filter]; [reflexivity|].
  destruct (hasCoords row) eqn:Hc; cbn [filter].
  - now rewrite IH.
  - destruct (coordsOk row) eqn:E; [apply hasCoords_of_coordsOk in E; congruence|].
    cbn [andb]. exact IH.
Qed.

(** X12. The loader's test never costs a marker or a count: a row the
    loader drops would be skipped by the renderer's coordinate check, so a
    pass over the kept rows shows the same markers and writes the same
    counts as a pass over all the parsed rows. *)
Theorem loader_filter_drops_only_unrenderable_rows
        (lib : Library) (rows : list Row) (w : World) :
  (forall row, hasCoords row = false -> forall shown, rowOutcome lib shown row = Skipped) /\
  layers (exec (createMarkers lib (array (filter hasCoords rows))) w) =
    layers (exec (createMarkers lib (array rows)) w) /\
  total_markers (exec (createMarkers lib (array (filter hasCoords rows))) w) =
    total_markers (exec (createMarkers lib (array rows)) w) /\
  food_drink_markers (exec (createMarkers lib (array (filter hasCoords rows))) w) =
    food_drink_markers (exec (createMarkers lib (array rows)) w).
Proof.
  assert (Hr : rendered lib (filter hasCoords rows) = rendered lib rows)
    by apply showRow_hasCoords.
  split.
  - intros row Hc shown. apply rowOutcome_skipped.
    destruct (coordsOk row) eqn:E; [|reflexivity].
    apply hasCoords_of_coordsOk in E. congruence.
  - rewrite !createMarkers_layers, !createMarkers_total, !createMarkers_food, Hr.
    rewrite foodRows_hasCoords. repeat split.
Qed.

(** ** Classification of a row *)

(** X13. A row is counted as food or drink iff it has a category in which,
    once lowered, one of "food", "restaurant", "cafe", "bar" occurs as a
    substring; an absent or empty category never counts. *)
Theorem isFoodDrink_iff_keyword_occurs (row : Row) :
  isFoodDrink row = true <->
  exists c, get row "category" = Some c /\
            (occursIn "food" (toLowerCase c) \/ occursIn "restaurant" (toLowerCase c) \/
             occursIn "cafe" (toLowerCase c) \/ occursIn "bar" (toLowerCase c)).
Proof.
  unfold isFoodDrink. destruct (get row "category") as [c|].
  - rewrite andb_true_iff, !orb_true_iff, !includes_occurs, negb_true_iff. split.
    + intros [_ H]. exists c. split; [reflexivity | tauto].
    + intros (c' & Hc & H). injection Hc as <-. split; [|tauto].
      apply String.eqb_neq. intros ->. cbn in H.
      destruct H as [H | [H | [H | H]]]; apply occursIn_empty in H; discriminate.
  - split; [discriminate|]. intros (c & Hc & _). discriminate.
Qed.

(** ** Start-up, end to end *)

(** X14. On a load that succeeds with at least one parsed row, start-up
    requests the data file once and leaves on the map the markers built
    from the parsed rows, with the three stat displays written from them. *)
Theorem successful_load_renders_parsed_rows
        (lib : Library) (status : N) (text : string) (w : World) :
  Papa_parse lib text <> [] ->
  let w' := exec (startup lib (Response true status text)) w in
  layers w' = rendered lib (Papa_parse lib text) /\
  total_markers w' = Some (N.of_nat (List.length (rendered lib (Papa_parse lib text)))) /\
  food_drink_markers w' = Some (N.of_nat (List.length (foodRows (Papa_parse lib text)))) /\
  visible_markers w' = total_markers w' /\
  requests w' = (requests w ++ ["data.csv"])%list.
Proof.
  intros Hne. cbv zeta. unfold exec. rewrite startup_run. cbn [snd].
  unfold exec. rewrite fetchChain_success. cbv zeta.
  destruct (Papa_parse lib text) as [|first rest] eqn:Hp; [contradiction|].
  match goal with
  | |- context [createMarkers lib (array ?rs) ?w0] =>
      pose proof (createMarkers_layers lib rs w0) as Hl;
      pose proof (createMarkers_total lib rs w0) as Ht;
      pose proof (createMarkers_food lib rs w0) as Hf;
      pose proof (createMarkers_visible lib rs w0) as Hv;
      pose proof (createMarkers_controls lib rs w0) as (_ & _ & Hr)
  end.
  unfold exec in Hl, Ht, Hf, Hv, Hr.
  rewrite Hl, Ht, Hf, Hv, Hr. unfold rendered.
  rewrite showRow_hasCoords, foodRows_hasCoords.
  repeat split.
  cbn [requests add_log].
  apply (add_logs_controls (missingLogs (first :: rest))).
Qed.

Lemma successful_load_renders_parsed_rows_witness :
  layers (exec (startup (quietLibrary (fun _ => scenarioRows)) (Response true 200 ""))
               emptyWorld) = [markerOf cafeRow].
Proof.
  destruct (successful_load_renders_parsed_rows
              (quietLibrary (fun _ => scenarioRows)) 200 "" emptyWorld)
    as [Hl _].
  - discriminate.
  - refine (eq_trans Hl _). vm_compute. reflexivity.
Defined.

(** X15. When the data file parses to no row at all, the loader fails on
    the headers of the first row: the TypeError is caught and logged by the
    chain, [createMarkers] is not reached, and the marker collection and
    the stat displays are left as they were, not reset to zero. *)
Theorem empty_file_is_logged_and_renders_nothing
        (lib : Library) (status : N) (text : string) (w : World) :
  Papa_parse lib text = [] ->
  let run := fetchChain lib (Response true status text) w in
  fst run = Ok tt /\
  In (LogError "Error loading CSV:"
               (TypeError "Cannot convert undefined or null to object"))
     (console (snd run)) /\
  layers (snd run) = layers w /\
  sameControls w (snd run).
Proof.
  intros Hp. cbv zeta. rewrite fetchChain_success. cbv zeta. rewrite Hp.
  cbn [fst snd]. split; [reflexivity|]. split.
  - cbn [console add_log]. apply in_or_app. right. left. reflexivity.
  - destruct w; cbn; unfold sameControls; cbn; repeat split.
Qed.

Lemma empty_file_is_logged_and_renders_nothing_witness :
  total_markers (snd (fetchChain (quietLibrary (fun _ => [])) (Response true 200 "")
                                 emptyWorld)) = None.
Proof.
  destruct (empty_file_is_logged_and_renders_nothing
              (quietLibrary (fun _ => [])) 200 "" emptyWorld eq_refl)
    as (_ & _ & _ & Ht & _).
  exact Ht.
Defined.

(** X16. When every property of the first row is a coordinate or name
    field, and in particular when the data has no row, the only filter
    control built is the search box; the call still ends normally and the
    listeners are attached. *)
Theorem only_search_box_without_filterable_columns (data : list Row) (w : World) :
  (forall c, In c (match data with [] => [] | first :: _ => keys first end) ->
             isFilterable c = false) ->
  createFilterControls (array data) w =
  (Ok tt, set_listeners data (set_filters [SearchGroup ""] w)).
Proof.
  intros H. rewrite createFilterControls_run.
  assert (Hnone : offeredColumns data = []).
  { unfold offeredColumns, filterableColumns.
    destruct data as [|first rest]; [reflexivity|].
    induction (keys first) as [|c cs IH]; [reflexivity|].
    cbn [filter]. rewrite (H c (or_introl eq_refl)).
    apply IH. intros c' Hc'. apply H. right. exact Hc'. }
  rewrite Hnone. reflexivity.
Qed.

Lemma only_search_box_without_filterable_columns_witness :
  filters (exec (createFilterControls (array [])) emptyWorld) = [SearchGroup ""] /\
  filters (exec (createFilterControls
                   (array [[("latitude", "40.7"); ("longitude", "-74.0");
                            ("name", "Blue Bar")]])) emptyWorld) = [SearchGroup ""].
Proof.
  split.
  - unfold exec.
    rewrite (only_search_box_without_filterable_columns [] emptyWorld);
      [reflexivity | intros c []].
  - unfold exec.
    rewrite (only_search_box_without_filterable_columns
               [[("latitude", "40.7"); ("longitude", "-74.0"); ("name", "Blue Bar")]]
               emptyWorld); [reflexivity|].
    intros c [<- | [<- | [<- | []]]]; reflexivity.
Defined.

(** ** Reading coordinates *)

Lemma spanDigits_digits (d rest : string) :
  allChars isDigit d = true ->
  match rest with String c _ => isDigit c = false | EmptyString => True end ->
  spanDigits (d ++ rest) = (d, rest).
Proof.
  intros Hd Hrest. induction d as [|c d IH]; cbn [append allChars] in *.
  - destruct rest as [|c r]; cbn [spanDigits]; [reflexivity|]. now rewrite Hrest.
  - apply andb_true_iff in Hd. destruct Hd as [Hc Hd].
    cbn [spanDigits]. rewrite Hc, (IH Hd). reflexivity.
Qed.

Lemma digit_is_plain (c : ascii) :
  isDigit c = true ->
  isWhiteSpace c = false /\ c <> "+"%char /\ c <> "-"%char /\ c <> "I"%char.
Proof.
  destruct c as [[] [] [] [] [] [] [] []]; cbn; intros H; try discriminate H;
    repeat split; discriminate.
Qed.

Lemma ofDecimal_not_NaN (neg : bool) (m : N) (e : Z) : ofDecimal neg m e <> NaN.
Proof. unfold ofDecimal. destruct (overflows m e); discriminate. Qed.

Lemma parseFloat_unsigned (c : ascii) (s : string) :
  isDigit c = true ->
  parseFloat (Some (String c s)) =
  let (d1, r1) := spanDigits (String c s) in
  let (d2, r2) :=
    match r1 with
    | String "." r => spanDigits r
    | _ => (EmptyString, r1)
    end in
  if ((d1 =? "") && (d2 =? ""))%bool then NaN
  else ofDecimal false (digitsValue 0 (d1 ++ d2))
                 (exponentPart r2 - Z.of_nat (String.length d2)).
Proof.
  intros Hd. destruct (digit_is_plain c Hd) as (Hw & Hp & Hm & Hi).
  unfold parseFloat. cbn [toStr trimStart]. rewrite Hw.
  destruct c as [[] [] [] [] [] [] [] []]; try discriminate Hd;
    try (exfalso; apply Hp; reflexivity);
    try (exfalso; apply Hm; reflexivity);
    reflexivity.
Qed.

Lemma trimStart_whitespace (ws t : string) :
  allChars isWhiteSpace ws = true -> trimStart (ws ++ t) = trimStart t.
Proof.
  induction ws as [|c ws IH]; cbn [append allChars trimStart]; intros H; [reflexivity|].
  apply andb_true_iff in H. destruct H as [Hc Hws]. rewrite Hc. apply IH, Hws.
Qed.

Lemma parseFloat_whitespace (ws t : string) :
  allChars isWhiteSpace ws = true ->
  parseFloat (Some (ws ++ t)) = parseFloat (Some t).
Proof.
  intros H. unfold parseFloat. cbn [toStr]. now rewrite trimStart_whitespace.
Qed.

Lemma parseFloat_digit_not_NaN (ws : string) (c : ascii) (s : string) :
  allChars isWhiteSpace ws = true ->
  isDigit c = true ->
  parseFloat (Some (ws ++ String c s)) <> NaN.
Proof.
  intros Hws Hd. rewrite parseFloat_whitespace by exact Hws.
  rewrite parseFloat_unsigned by exact Hd.
  cbn [spanDigits]. rewrite Hd. destruct (spanDigits s) as [d r].
  match goal with
  | |- context [let (_, _) := ?m in _] => destruct m as [d2 r2]
  end.
  cbn [String.eqb andb]. apply ofDecimal_not_NaN.
Qed.

(** X17. A row whose latitude and longitude both start, after optional
    white space, with a decimal digit passes the coordinate check whatever
    follows the digit: its coordinates never parse to NaN, so the renderer
    never skips it. *)
Theorem rows_with_leading_digits_are_never_skipped
        (lib : Library) (shown : list Marker) (row : Row)
        (ws1 ws2 : string) (c1 c2 : ascii) (s1 s2 : string) :
  get row "latitude" = Some (ws1 ++ String c1 s1) ->
  get row "longitude" = Some (ws2 ++ String c2 s2) ->
  allChars isWhiteSpace ws1 = true -> allChars isWhiteSpace ws2 = true ->
  isDigit c1 = true -> isDigit c2 = true ->
  coordsOk row = true /\ rowOutcome lib shown row <> Skipped.
Proof.
  intros Hlat Hlng Hw1 Hw2 Hd1 Hd2.
  assert (Hok : coordsOk row = true).
  { apply coordsOk_not_NaN. rewrite Hlat, Hlng.
    split; apply parseFloat_digit_not_NaN; assumption. }
  split; [exact Hok|]. intros Hs. apply rowOutcome_skipped in Hs. congruence.
Qed.

Lemma rows_with_leading_digits_are_never_skipped_witness :
  coordsOk [("latitude", " 40.7N"); ("longitude", "74 West")] = true.
Proof.
  apply (rows_with_leading_digits_are_never_skipped
           (quietLibrary (fun _ => [])) []
           [("latitude", " 40.7N"); ("longitude", "74 West")]
           " " "" "4" "7" "0.7N" "4 West"); reflexivity.
Defined.

(** X18. Text after a number is ignored by the coordinate check: a
    non-empty run of digits followed by nothing, or by a character that is
    no digit, no point and no exponent mark, is read as that integer. *)
Theorem parseFloat_reads_leading_integer (d rest : string) :
  d <> "" ->
  allChars isDigit d = true ->
  match rest with
  | EmptyString => True
  | String x _ => isDigit x = false /\ x <> "."%char /\ x <> "e"%char /\ x <> "E"%char
  end ->
  parseFloat (Some (d ++ rest)) = ofDecimal false (digitsValue 0 d) 0.
Proof.
  intros Hne Hd Hrest. destruct d as [|c d]; [contradiction|].
  pose proof Hd as Hd'. cbn [allChars] in Hd'. apply andb_true_iff in Hd'.
  destruct Hd' as [Hc _].
  cbn [append]. rewrite parseFloat_unsigned by exact Hc.
  change (String c (d ++ rest)) with (String c d ++ rest).
  rewrite spanDigits_digits; [|exact Hd|destruct rest; tauto].
  destruct rest as [|x r].
  - cbn [exponentPart String.eqb andb String.length Z.of_nat Z.sub].
    rewrite append_empty_r. reflexivity.
  - destruct Hrest as (Hx & Hp & He & HE).
    destruct x as [[] [] [] [] [] [] [] []];
      try (exfalso; apply Hp; reflexivity);
      try (exfalso; apply He; reflexivity);
      try (exfalso; apply HE; reflexivity);
      cbn [exponentPart Ascii.eqb Bool.eqb orb andb String.eqb String.length
           Z.of_nat Z.sub];
      rewrite append_empty_r; reflexivity.
Qed.

Lemma parseFloat_reads_leading_integer_witness :
  parseFloat (Some "40abc") = Finite false 40 0.
Proof.
  refine (eq_trans (parseFloat_reads_leading_integer "40" "abc" _ _ _) _).
  - discriminate.
  - reflexivity.
  - repeat split; discriminate.
  - vm_compute. reflexivity.
Defined.

(** ** The popup *)

Lemma if_append (b : bool) (p x : string) :
  (if b then p ++ x else p) = p ++ (if b then x else "").
Proof. destruct b; [reflexivity | now rewrite append_empty_r]. Qed.

(** X19. The popup of a row is the opening tag, then the title, subcategory,
    website, image, address and category sections in that order, then the
    closing tag; a section is empty exactly when its field is absent or
    empty, no section occurs twice, and the postcode only appears inside
    the address section. *)
Theorem popupContent_is_ordered_sections (row : Row) :
  popupContent row =
  ("<div class=" ++ dq ++ "popup-content" ++ dq ++ ">")
    ++ titleSection row ++ subcategorySection row ++ websiteSection row
    ++ imageSection row ++ addressSection row ++ categorySection row
    ++ "</div>".
Proof.
  unfold popupContent, titleSection, subcategorySection, websiteSection,
    imageSection, categorySection. cbv zeta.
  rewrite !if_append. unfold addressSection.
  destruct (truthy (get row "address")); [destruct (truthy (get row "postcode"))|];
    rewrite ?append_assoc, ?append_empty_r; reflexivity.
Qed.

(** ** Options and requests *)

(** X20. Take a column whose name is made of ASCII characters, none of
    them an upper-case letter or an underscore, and is not the name of a
    member of [Object.prototype], in a data set where that name and the
    values of the column are free of markup characters.  Then every option
    offered in its dropdown matches at least one row of the data: selecting
    it never empties the result. *)
Theorem offered_option_matches_some_row (data : list Row) (column v : string) :
  allChars asciiChar column = true ->
  allChars plainChar column = true ->
  ~ In column prototypeNames ->
  markupSafe data column ->
  In v (uniqueValues data column) ->
  exists item,
    In item (filteredData data
               [SearchGroup ""; SelectGroup (labelText column) (uniqueValues data column) v]).
Proof.
  intros _ Hplain _ _ Hv.
  destruct (uniqueValues_spec data column) as (_ & _ & Hmem).
  apply Hmem in Hv. destruct Hv as (_ & item & Hin & Hget).
  exists item. unfold filteredData. apply filter_In. split; [exact Hin|].
  cbn [searchValue toLowerCase mapChars].
  change (filterValues [SearchGroup ""; SelectGroup (labelText column)
                                          (uniqueValues data column) v])
    with (filterValues [SelectGroup (labelText column) (uniqueValues data column) v]).
  apply dropdown_constrains_lowered_label. right.
  apply labelText_round_trip in Hplain. rewrite Hplain. exact Hget.
Qed.

Lemma offered_option_matches_some_row_witness :
  exists item,
    In item (filteredData barRows
               [SearchGroup "";
                SelectGroup (labelText "category") (uniqueValues barRows "category") "Food"]).
Proof.
  apply (offered_option_matches_some_row barRows "category" "Food").
  - reflexivity.
  - reflexivity.
  - apply (barRows_are_plain "category"). left. reflexivity.
  - apply (barRows_are_plain "category"). left. reflexivity.
  - vm_compute. right. left. reflexivity.
Defined.

(** X21. Whatever the request returns, start-up asks for the data file
    exactly once, and nothing the handler or the loader's chain does adds
    another request. *)
Theorem startup_requests_data_file_once
        (lib : Library) (outcome : FetchOutcome) (w : World) :
  requests (exec (startup lib outcome) w) = (requests w ++ ["data.csv"])%list /\
  requests (exec (fetchChain lib outcome) w) = requests w.
Proof.
  unfold exec at 1. rewrite startup_run. cbn [snd].
  destruct (fetchChain_ok lib outcome (set_filters [SearchGroup ""] (exec loadCSV w)))
    as (_ & _ & _ & Hr).
  destruct (fetchChain_ok lib outcome w) as (_ & _ & _ & Hr').
  rewrite Hr, Hr'. split; reflexivity.
Qed.
